(** * RunNewsAgentScript: a shallow embedding of [__init__.py]

    The Azure function [main] opens a session with the news agent, runs one
    conversation turn, recovers a JSON object from the free-form reply
    ([extract_news_content]), normalises every article's date ([parse_date])
    and answers with the cleaned document.

    Modelling decisions, in one place:
    - a Python [str] is a Rocq [string]; a character is a code point below
      256.  On that range the interpreter's character classes are fixed:
      decimal digits are 0-9, white space is the table of [py_isspace], and
      only ASCII letters are case variants of ASCII letters.  A JSON escape
      that denotes a code point from 256 on is outside the model and is
      marked as such ([UnsupportedText]);
    - Python values are the JSON values [response.json()] and [json.loads]
      build; a [dict] is an association list in insertion order with
      distinct keys; nothing is aliased, because every value comes out of a
      JSON decoder as a tree.  A float is kept as its literal: the program
      only ever tests it for truth;
    - an exception is a constructor of [exn]; fallible code returns [exc];
    - the clock, the session identifier and the two remote calls are fields
      of an explicit environment; the calls made are logged in the state;
    - [json.dumps(v, indent=2)] is the constructor [BodyJson v]: the
      response body is known by the value it serialises;
    - logging is left out: it changes no result;
    - microseconds and the UTC time zone are left out of [datetime]: no
      output depends on them.

    Library behaviour that depends on the interpreter is fixed as follows:
    [int] refuses more than 4300 digits; month names are those of the C
    locale; [strftime('%Y')] pads the year to four digits, as documented;
    [datetime.fromisoformat] accepts the forms [isoformat] emits.
*)

From Stdlib Require Import ZArith List String Ascii Bool Lia.
From Stdlib Require Import DecimalString.
Import ListNotations.
Local Open Scope string_scope.
Local Open Scope Z_scope.

(** ** Exceptions *)

Inductive exn : Type :=
| ValueError
| IndexError
| AttributeError
| OverflowError
| TypeError
| KeyError
| JSONDecodeError      (* a subclass of ValueError, raised by json.loads *)
| RequestException     (* transport or HTTP status failure of requests *)
| UnsupportedText.     (* a code point above 255: outside this model *)

Inductive exc (A : Type) : Type :=
| Ret (a : A)
| Raise (e : exn).
Arguments Ret {A} a.
Arguments Raise {A} e.

Definition exc_bind {A B} (m : exc A) (k : A -> exc B) : exc B :=
  match m with
  | Ret a => k a
  | Raise e => Raise e
  end.

Module ExcNotations.
  Notation "x <-! m ;; k" := (exc_bind m (fun x => k))
    (at level 61, m at next level, right associativity).
  Notation "' p <-! m ;; k" := (exc_bind m (fun p => k))
    (at level 61, p pattern, m at next level, right associativity).
End ExcNotations.
Import ExcNotations.

(** ** Characters and strings *)

Definition code (c : ascii) : Z := Z.of_N (N_of_ascii c).

(** [str.isspace] on one character, which is also [\s] of [re] on [str]
    patterns and the white space of [str.strip] and [str.split]. *)
Definition py_isspace (c : ascii) : bool :=
  let n := code c in
  ((9 <=? n) && (n <=? 13)) || ((28 <=? n) && (n <=? 32))
  || (n =? 133) || (n =? 160).

(** [\d] of [re], and the digits [int] accepts. *)
Definition py_isdigit (c : ascii) : bool :=
  let n := code c in (48 <=? n) && (n <=? 57).

Definition digit_value (c : ascii) : Z := code c - 48.

(** [str.lower] on one character; every other character below 256 that
    changes is irrelevant to the comparisons made in this program. *)
Definition py_lower (c : ascii) : ascii :=
  let n := code c in
  if ((65 <=? n) && (n <=? 90)) || ((192 <=? n) && (n <=? 222) && negb (n =? 215))
  then ascii_of_N (Z.to_N (n + 32)) else c.

Fixpoint lower (s : string) : string :=
  match s with
  | EmptyString => EmptyString
  | String c r => String (py_lower c) (lower r)
  end.

Fixpoint lstrip (s : string) : string :=
  match s with
  | String c r => if py_isspace c then lstrip r else s
  | EmptyString => EmptyString
  end.

(** Drops the trailing white space: a character is kept when it is not
    white space or something after it is kept. *)
Fixpoint rstrip (s : string) : string :=
  match s with
  | EmptyString => EmptyString
  | String c r =>
      match rstrip r with
      | EmptyString => if py_isspace c then EmptyString else String c EmptyString
      | r' => String c r'
      end
  end.

Definition strip (s : string) : string := rstrip (lstrip s).

(** [str.split()]: the maximal runs of characters that are not white space. *)
Fixpoint split_aux (cur : string) (s : string) : list string :=
  match s with
  | EmptyString => match cur with EmptyString => [] | _ => [cur] end
  | String c r =>
      if py_isspace c
      then match cur with
           | EmptyString => split_aux EmptyString r
           | _ => cur :: split_aux EmptyString r
           end
      else split_aux (cur ++ String c EmptyString) r
  end.

Definition split (s : string) : list string := split_aux EmptyString s.

(** [sub in s] *)
Fixpoint contains (sub s : string) : bool :=
  if prefix sub s then true
  else match s with
       | EmptyString => false
       | String _ r => contains sub r
       end.

(** [s.find(c)] for a one-character needle: the first index, or -1. *)
Fixpoint find (c : ascii) (s : string) : Z :=
  match s with
  | EmptyString => -1
  | String d r =>
      if Ascii.eqb d c then 0
      else let i := find c r in if i =? -1 then -1 else i + 1
  end.

(** [s.rfind(c)]: the last index, or -1. *)
Fixpoint rfind (c : ascii) (s : string) : Z :=
  match s with
  | EmptyString => -1
  | String d r =>
      let i := rfind c r in
      if i =? -1 then (if Ascii.eqb d c then 0 else -1) else i + 1
  end.

(** [s[i:j]] for indices that are not negative. *)
Definition slice (s : string) (i j : Z) : string :=
  substring (Z.to_nat i) (Z.to_nat (j - i)) s.

(** [str(n)] for an integer that is not negative. *)
Definition str_of_Z (n : Z) : string :=
  NilZero.string_of_uint (N.to_uint (Z.to_N n)).

(** [int(s)] on a string of decimal digits. *)
Fixpoint int_of_digits_acc (acc : Z) (s : string) : Z :=
  match s with
  | EmptyString => acc
  | String c r => int_of_digits_acc (10 * acc + digit_value c) r
  end.

(** The interpreter refuses to convert more than 4300 digits. *)
Definition max_str_digits : nat := 4300.

Definition py_int (s : string) : exc Z :=
  match s with
  | EmptyString => Raise ValueError
  | _ =>
      if (max_str_digits <? String.length s)%nat then Raise ValueError
      else Ret (int_of_digits_acc 0 s)
  end.

(** Test inputs are written with an apostrophe for the double quote and a
    vertical bar for the line feed. *)
Definition quote : ascii := ascii_of_nat 34.
Definition newline : ascii := ascii_of_nat 10.

Fixpoint text (s : string) : string :=
  match s with
  | EmptyString => EmptyString
  | String c r =>
      String (if Ascii.eqb c "'" then quote
              else if Ascii.eqb c "|" then newline else c) (text r)
  end.

(** ** Regular expressions

    The backtracking matcher of [re], as far as this program and the
    library code it calls use it.  [rmatch r s] lists, in the order the
    matcher tries them, the suffixes of [s] left after a match of [r] at the
    start of [s]; the head is the match [re] reports. *)

Inductive regex : Type :=
| REps
| RChar (p : ascii -> bool)
| RSeq (r1 r2 : regex)
| RAlt (r1 r2 : regex)
| RStar (r : regex).              (* greedy *)

Fixpoint rmatch (r : regex) (s : string) : list string :=
  match r with
  | REps => [s]
  | RChar p =>
      match s with
      | String c t => if p c then [t] else []
      | EmptyString => []
      end
  | RSeq a b => flat_map (rmatch b) (rmatch a s)
  | RAlt a b => (rmatch a s ++ rmatch b s)%list
  | RStar a =>
      (fix star (fuel : nat) (s : string) {struct fuel} : list string :=
         match fuel with
         | O => [s]
         | S f =>
             (flat_map (fun s' =>
                          if (String.length s' <? String.length s)%nat
                          then star f s' else [])
                       (rmatch a s) ++ [s])%list
         end) (String.length s) s
  end.

Definition RPlus (r : regex) : regex := RSeq r (RStar r).
Definition ROpt (r : regex) : regex := RAlt r REps.
Definition RLit (c : ascii) : regex := RChar (Ascii.eqb c).
Definition RDigit : regex := RChar py_isdigit.
Definition RSpace : regex := RChar py_isspace.

(** A literal string under [re.IGNORECASE]. *)
Fixpoint RWordI (w : string) : regex :=
  match w with
  | EmptyString => REps
  | String c r => RSeq (RChar (fun d => Ascii.eqb (py_lower d) (py_lower c))) (RWordI r)
  end.

(** The text consumed when [rest] is what a match left of [s]. *)
Definition consumed (s rest : string) : string :=
  substring 0 (String.length s - String.length rest) s.

(** [re.match(r, s)]: the matched text and what follows it. *)
Definition re_match (r : regex) (s : string) : option (string * string) :=
  match rmatch r s with
  | rest :: _ => Some (consumed s rest, rest)
  | [] => None
  end.

(** [re.search(r, s)]: the leftmost match; [None] when there is none. *)
Fixpoint re_search (r : regex) (s : string) : option string :=
  match re_match r s with
  | Some (m, _) => Some m
  | None =>
      match s with
      | EmptyString => None
      | String _ t => re_search r t
      end
  end.

(** [re.sub(r, repl, s)] for a pattern that matches no empty string and a
    replacement without group references. *)
Fixpoint re_sub_aux (fuel : nat) (r : regex) (repl s : string) : string :=
  match fuel with
  | O => s
  | S f =>
      match s with
      | EmptyString => EmptyString
      | String c t =>
          match re_match r s with
          | Some (String _ _, rest) => repl ++ re_sub_aux f r repl rest
          | _ => String c (re_sub_aux f r repl t)
          end
      end
  end.

Definition re_sub (r : regex) (repl s : string) : string :=
  re_sub_aux (String.length s) r repl s.

(** ** Python values *)

(** What a JSON decoder builds.  [PFloat x] is the float [float(x)]; the
    program never computes with it. *)
#[local] Set Warnings "-register-all".
Inductive pyval : Type :=
| PNone
| PBool (b : bool)
| PInt (n : Z)
| PFloat (lexeme : string)
| PStr (s : string)
| PList (l : list pyval)
| PDict (d : list (string * pyval)).

Definition dict : Type := list (string * pyval).

(** [d.get(k)] *)
Fixpoint dict_get (k : string) (d : dict) : option pyval :=
  match d with
  | [] => None
  | (k', v) :: r => if String.eqb k' k then Some v else dict_get k r
  end.

(** [d[k] = v]: a key already there keeps its place. *)
Fixpoint dict_set (k : string) (v : pyval) (d : dict) : dict :=
  match d with
  | [] => [(k, v)]
  | (k', v') :: r =>
      if String.eqb k' k then (k', v) :: r else (k', v') :: dict_set k v r
  end.

(** [dict(pairs)] *)
Definition dict_of_pairs (l : list (string * pyval)) : dict :=
  fold_left (fun d kv => dict_set (fst kv) (snd kv) d) l [].

(** ** [json.loads]

    The decoder of the [json] module with its default settings: strict
    strings, [NaN] and the infinities accepted, and a later duplicate key
    overriding an earlier one. *)

Definition is_json_ws (c : ascii) : bool :=
  let n := code c in (n =? 32) || (n =? 9) || (n =? 10) || (n =? 13).

Fixpoint skip_ws (s : string) : string :=
  match s with
  | String c r => if is_json_ws c then skip_ws r else s
  | EmptyString => EmptyString
  end.

Definition hex_value (c : ascii) : option Z :=
  let n := code c in
  if (48 <=? n) && (n <=? 57) then Some (n - 48)
  else if (65 <=? n) && (n <=? 70) then Some (n - 55)
  else if (97 <=? n) && (n <=? 102) then Some (n - 87)
  else None.

Definition hex4 (a b c d : ascii) : option Z :=
  match hex_value a, hex_value b, hex_value c, hex_value d with
  | Some x, Some y, Some z, Some w => Some (((x * 16 + y) * 16 + z) * 16 + w)
  | _, _, _, _ => None
  end.

(** The character a one-letter escape stands for. *)
Definition unescape (c : ascii) : option ascii :=
  let n := code c in
  if n =? 34 then Some quote                 (* \<quote> *)
  else if n =? 92 then Some c                (* \\ *)
  else if n =? 47 then Some c                (* \/ *)
  else if n =? 98 then Some (ascii_of_nat 8)   (* \b *)
  else if n =? 102 then Some (ascii_of_nat 12) (* \f *)
  else if n =? 110 then Some (ascii_of_nat 10) (* \n *)
  else if n =? 114 then Some (ascii_of_nat 13) (* \r *)
  else if n =? 116 then Some (ascii_of_nat 9)  (* \t *)
  else None.

Definition snoc (s : string) (c : ascii) : string := s ++ String c EmptyString.

(** [scanstring]: [s] starts after the opening quote; the result is the
    decoded string and the text after the closing quote. *)
Fixpoint scanstring (acc : string) (s : string) : exc (string * string) :=
  match s with
  | EmptyString => Raise JSONDecodeError
  | String c r =>
      if code c =? 34 then Ret (acc, r)
      else if code c =? 92 then
        match r with
        | String e r' =>
            if code e =? 117 then
              match r' with
              | String h1 (String h2 (String h3 (String h4 r''))) =>
                  match hex4 h1 h2 h3 h4 with
                  | Some n =>
                      if n <? 256
                      then scanstring (snoc acc (ascii_of_N (Z.to_N n))) r''
                      else Raise UnsupportedText
                  | None => Raise JSONDecodeError
                  end
              | _ => Raise JSONDecodeError
              end
            else
              match unescape e with
              | Some d => scanstring (snoc acc d) r'
              | None => Raise JSONDecodeError
              end
        | EmptyString => Raise JSONDecodeError
        end
      else if code c <? 32 then Raise JSONDecodeError
      else scanstring (snoc acc c) r
  end.

(** [NUMBER_RE], group by group: an optional minus sign and either a zero
    or a digit from 1 to 9 followed by digits; optionally a dot and digits;
    optionally e or E, a sign and digits. *)
Definition number_int_re : regex :=
  RSeq (ROpt (RLit "-"))
       (RAlt (RLit "0")
             (RSeq (RChar (fun c => py_isdigit c && negb (Ascii.eqb c "0")))
                   (RStar RDigit))).
Definition number_frac_re : regex := RSeq (RLit ".") (RPlus RDigit).
Definition number_exp_re : regex :=
  RSeq (RChar (fun c => Ascii.eqb c "e" || Ascii.eqb c "E"))
       (RSeq (ROpt (RChar (fun c => Ascii.eqb c "-" || Ascii.eqb c "+")))
             (RPlus RDigit)).

(** [int] on the integer group, which may start with a minus sign. *)
Definition int_of_literal (s : string) : exc Z :=
  match s with
  | String "-" r => n <-! py_int r ;; Ret (- n)
  | _ => py_int s
  end.

(** The number at the start of [s], if there is one. *)
Definition scan_number (s : string) : option (exc pyval * string) :=
  match re_match number_int_re s with
  | None => None
  | Some (integer, r1) =>
      let '(frac, r2) := match re_match number_frac_re r1 with
                         | Some m => m | None => (EmptyString, r1) end in
      let '(exp, r3) := match re_match number_exp_re r2 with
                        | Some m => m | None => (EmptyString, r2) end in
      match frac, exp with
      | EmptyString, EmptyString =>
          Some (n <-! int_of_literal integer ;; Ret (PInt n), r3)
      | _, _ => Some (Ret (PFloat (integer ++ frac ++ exp)), r3)
      end
  end.

(** [after w s]: what follows [w] when [s] starts with it. *)
Definition after (w s : string) : option string :=
  if prefix w s
  then Some (substring (String.length w) (String.length s - String.length w) s)
  else None.

(** [scan_once]: one JSON value at the start of [s] and the text after it.
    [depth] bounds the nesting of arrays and objects; [loads] starts with
    more than any text of that length can use. *)
Fixpoint scan_once (depth : nat) (s : string) {struct depth}
  : exc (pyval * string) :=
  match depth with
  | O => Raise JSONDecodeError
  | S depth' =>
      let members :=
        fix members (n : nat) (acc : list (string * pyval)) (s : string)
            {struct n} : exc (pyval * string) :=
          match n, s with
          | S n', String c r =>
              if code c =? 34 then
                '(key, r1) <-! scanstring EmptyString r ;;
                match skip_ws r1 with
                | String ":" r2 =>
                    '(value, r3) <-! scan_once depth' (skip_ws r2) ;;
                    let acc' := (acc ++ [(key, value)])%list in
                    match skip_ws r3 with
                    | String "}" r4 => Ret (PDict (dict_of_pairs acc'), r4)
                    | String "," r4 => members n' acc' (skip_ws r4)
                    | _ => Raise JSONDecodeError
                    end
                | _ => Raise JSONDecodeError
                end
              else Raise JSONDecodeError
          | _, _ => Raise JSONDecodeError
          end in
      let elements :=
        fix elements (n : nat) (acc : list pyval) (s : string)
            {struct n} : exc (pyval * string) :=
          match n with
          | S n' =>
              '(value, r1) <-! scan_once depth' s ;;
              let acc' := (acc ++ [value])%list in
              match skip_ws r1 with
              | String "]" r2 => Ret (PList acc', r2)
              | String "," r2 => elements n' acc' (skip_ws r2)
              | _ => Raise JSONDecodeError
              end
          | O => Raise JSONDecodeError
          end in
      match s with
      | EmptyString => Raise JSONDecodeError
      | String c r =>
          if code c =? 34 then
            '(str, rest) <-! scanstring EmptyString r ;; Ret (PStr str, rest)
          else if Ascii.eqb c "{" then
            match skip_ws r with
            | String "}" r' => Ret (PDict [], r')
            | r' => members (String.length r') [] r'
            end
          else if Ascii.eqb c "[" then
            match skip_ws r with
            | String "]" r' => Ret (PList [], r')
            | r' => elements (String.length r') [] r'
            end
          else
            match after "null" s, after "true" s, after "false" s with
            | Some r', _, _ => Ret (PNone, r')
            | _, Some r', _ => Ret (PBool true, r')
            | _, _, Some r' => Ret (PBool false, r')
            | _, _, _ =>
                match scan_number s with
                | Some (v, r') => x <-! v ;; Ret (x, r')
                | None =>
                    match after "NaN" s, after "Infinity" s,
                          after "-Infinity" s with
                    | Some r', _, _ => Ret (PFloat "NaN", r')
                    | _, Some r', _ => Ret (PFloat "Infinity", r')
                    | _, _, Some r' => Ret (PFloat "-Infinity", r')
                    | _, _, _ => Raise JSONDecodeError
                    end
                end
            end
      end
  end.

(** [json.loads(s)] *)
Definition json_loads (s : string) : exc pyval :=
  '(obj, rest) <-! scan_once (S (String.length s)) (skip_ws s) ;;
  match skip_ws rest with
  | EmptyString => Ret obj
  | _ => Raise JSONDecodeError
  end.

(** ** [datetime]

    The proleptic Gregorian calendar of the [datetime] module; the helper
    functions keep the names they have there. *)

Record datetime : Type := mkdatetime {
  year : Z; month : Z; day : Z;
  hour : Z; minute : Z; second : Z
}.

(** A [timedelta] in normal form: [0 <= seconds < 86400]. *)
Record timedelta : Type := mktimedelta { days : Z; seconds : Z }.

Definition MINYEAR : Z := 1.
Definition MAXYEAR : Z := 9999.
Definition MAXORDINAL : Z := 3652059.      (* date.max.toordinal() *)

Definition _is_leap (y : Z) : bool :=
  (y mod 4 =? 0) && (negb (y mod 100 =? 0) || (y mod 400 =? 0)).

Definition _DAYS_IN_MONTH (m : Z) : Z :=
  nth (Z.to_nat m) [-1; 31; 28; 31; 30; 31; 30; 31; 31; 30; 31; 30; 31] (-1).

Definition _DAYS_BEFORE_MONTH (m : Z) : Z :=
  nth (Z.to_nat m) [-1; 0; 31; 59; 90; 120; 151; 181; 212; 243; 273; 304; 334] (-1).

Definition _days_in_month (y m : Z) : Z :=
  if (m =? 2) && _is_leap y then 29 else _DAYS_IN_MONTH m.

Definition _days_before_year (y : Z) : Z :=
  let y := y - 1 in y * 365 + y / 4 - y / 100 + y / 400.

Definition _days_before_month (y m : Z) : Z :=
  _DAYS_BEFORE_MONTH m + (if (2 <? m) && _is_leap y then 1 else 0).

Definition _ymd2ord (y m d : Z) : Z :=
  _days_before_year y + _days_before_month y m + d.

Definition _ord2ymd (n : Z) : Z * Z * Z :=
  let n := n - 1 in
  let n400 := n / 146097 in let n := n mod 146097 in
  let y := n400 * 400 + 1 in
  let n100 := n / 36524 in let n := n mod 36524 in
  let n4 := n / 1461 in let n := n mod 1461 in
  let n1 := n / 365 in let n := n mod 365 in
  let y := y + n100 * 100 + n4 * 4 + n1 in
  if (n1 =? 4) || (n100 =? 4) then (y - 1, 12, 31)
  else
    let leapyear := (n1 =? 3) && (negb (n4 =? 24) || (n100 =? 3)) in
    let m := Z.shiftr (n + 50) 5 in
    let preceding :=
      _DAYS_BEFORE_MONTH m + (if (2 <? m) && leapyear then 1 else 0) in
    if n <? preceding then
      let m := m - 1 in
      let preceding :=
        preceding - (_DAYS_IN_MONTH m + (if (m =? 2) && leapyear then 1 else 0)) in
      (y, m, n - preceding + 1)
    else (y, m, n - preceding + 1).

Definition toordinal (t : datetime) : Z := _ymd2ord (year t) (month t) (day t).

(** The field ranges the constructor of [datetime] checks. *)
Definition valid_datetime (t : datetime) : bool :=
  (MINYEAR <=? year t) && (year t <=? MAXYEAR)
  && (1 <=? month t) && (month t <=? 12)
  && (1 <=? day t) && (day t <=? _days_in_month (year t) (month t))
  && (0 <=? hour t) && (hour t <? 24) && (0 <=? minute t) && (minute t <? 60)
  && (0 <=? second t) && (second t <? 60).

(** The constructor [datetime(year, month, day, hour, minute, second)]. *)
Definition new_datetime (y m d hh mm ss : Z) : exc datetime :=
  let t := mkdatetime y m d hh mm ss in
  if valid_datetime t then Ret t else Raise ValueError.

(** The constructor [timedelta(days=d, hours=h, minutes=m)]. *)
Definition new_timedelta (d h m : Z) : exc timedelta :=
  let s := h * 3600 + m * 60 in
  let d := d + s / 86400 in
  if Z.abs d <=? 999999999 then Ret (mktimedelta d (s mod 86400))
  else Raise OverflowError.

(** [t - delta] *)
Definition datetime_sub (t : datetime) (delta : timedelta) : exc datetime :=
  let s := hour t * 3600 + minute t * 60 + second t - seconds delta in
  let d := toordinal t - days delta + s / 86400 in
  let s := s mod 86400 in
  if (0 <? d) && (d <=? MAXORDINAL) then
    let '(y, m, dd) := _ord2ymd d in
    Ret (mkdatetime y m dd (s / 3600) (s mod 3600 / 60) (s mod 60))
  else Raise OverflowError.

(** [s.zfill(w)] *)
Definition zfill (w : nat) (s : string) : string :=
  (fix zeros (n : nat) : string :=
     match n with O => s | S n' => String "0" (zeros n') end)
    (w - String.length s)%nat.

(** [t.strftime('%Y-%m-%d')] *)
Definition strftime_Ymd (t : datetime) : string :=
  zfill 4 (str_of_Z (year t)) ++ "-" ++ zfill 2 (str_of_Z (month t))
  ++ "-" ++ zfill 2 (str_of_Z (day t)).

(** *** [datetime.strptime(data, "%b %d %Y")]

    [_strptime] turns the format into a regular expression, matched
    ignoring case: the abbreviated month names of the C locale, white
    space, the day of the month, white space, four digits. *)

Definition a_month : list string :=
  ["jan"; "feb"; "mar"; "apr"; "may"; "jun";
   "jul"; "aug"; "sep"; "oct"; "nov"; "dec"].

Definition directive_b : regex :=
  fold_right (fun w r => RAlt (RWordI w) r) (RChar (fun _ => false)) a_month.

Definition range_re (lo hi : ascii) : regex :=
  RChar (fun c => (code lo <=? code c) && (code c <=? code hi)).

(** 3[0-1] | [1-2]\d | 0[1-9] | [1-9] | <space>[1-9] *)
Definition directive_d : regex :=
  RAlt (RSeq (RLit "3") (range_re "0" "1"))
 (RAlt (RSeq (range_re "1" "2") RDigit)
 (RAlt (RSeq (RLit "0") (range_re "1" "9"))
 (RAlt (range_re "1" "9")
       (RSeq (RLit " ") (range_re "1" "9"))))).

Definition directive_Y : regex := RSeq RDigit (RSeq RDigit (RSeq RDigit RDigit)).

(** [l.index(x) + 1] *)
Fixpoint index_from (i : Z) (x : string) (l : list string) : exc Z :=
  match l with
  | [] => Raise ValueError
  | y :: r => if String.eqb y x then Ret i else index_from (i + 1) x r
  end.

(** The groups b, d, Y of the first match, and the text left after it. *)
Definition strptime_groups (data : string)
  : list (string * string * string * string) :=
  flat_map (fun r1 =>
  flat_map (fun r2 =>
  flat_map (fun r3 =>
  flat_map (fun r4 =>
  map (fun r5 => (consumed data r1, consumed r2 r3, consumed r4 r5, r5))
      (rmatch directive_Y r4))
      (rmatch (RPlus RSpace) r3))
      (rmatch directive_d r2))
      (rmatch (RPlus RSpace) r1))
      (rmatch directive_b data).

Definition strptime_b_d_Y (data : string) : exc datetime :=
  match strptime_groups data with
  | [] => Raise ValueError                     (* does not match format *)
  | (b, d, Y, rest) :: _ =>
      match rest with
      | String _ _ => Raise ValueError         (* unconverted data remains *)
      | EmptyString =>
          m <-! index_from 1 (lower b) a_month ;;
          y <-! py_int Y ;;
          dd <-! py_int (lstrip d) ;;
          new_datetime y m dd 0 0 0
      end
  end.

(** *** [datetime.fromisoformat]

    The forms [datetime.isoformat] emits:
    YYYY-MM-DD, optionally followed by one separator character and
    HH[:MM[:SS[.fff[fff]]]], optionally followed by a UTC offset
    +HH:MM[:SS[.ffffff]] or -HH:MM[:SS[.ffffff]].  Interpreters from 3.11 on
    accept further ISO 8601 forms; either way the call gives a valid
    [datetime] or raises [ValueError]. *)

Fixpoint repeat_re (n : nat) (r : regex) : regex :=
  match n with O => REps | S n' => RSeq r (repeat_re n' r) end.

Definition iso_date_re : regex :=
  RSeq (repeat_re 4 RDigit) (RSeq (RLit "-")
  (RSeq (repeat_re 2 RDigit) (RSeq (RLit "-") (repeat_re 2 RDigit)))).

(** HH[:MM[:SS[.f..f]]] with a fraction of one of the given lengths. *)
Definition iso_hms_re (fractions : list nat) : regex :=
  let frac :=
    fold_right (fun n r => RAlt (RSeq (RLit ".") (repeat_re n RDigit)) r)
               REps fractions in
  RSeq (repeat_re 2 RDigit)
       (ROpt (RSeq (RLit ":") (RSeq (repeat_re 2 RDigit)
             (ROpt (RSeq (RLit ":") (RSeq (repeat_re 2 RDigit) frac)))))).

Definition fullmatch (r : regex) (s : string) : bool :=
  existsb (String.eqb EmptyString) (rmatch r s).

(** The integer written at [s[i:i+2]], zero when [s] is too short. *)
Definition field2 (s : string) (i : nat) : Z :=
  int_of_digits_acc 0 (substring i 2 s).

Definition parse_hh_mm_ss (fractions : list nat) (s : string)
  : exc (Z * Z * Z) :=
  if fullmatch (iso_hms_re fractions) s
  then Ret (field2 s 0, field2 s 3, field2 s 6)
  else Raise ValueError.

(** The index of the first sign character of a time string. *)
Fixpoint find_sign (s : string) : option nat :=
  match s with
  | EmptyString => None
  | String c r =>
      if Ascii.eqb c "-" || Ascii.eqb c "+" then Some O
      else option_map S (find_sign r)
  end.

Definition parse_isoformat_time (tstr : string) : exc (Z * Z * Z) :=
  match find_sign tstr with
  | None => parse_hh_mm_ss [6%nat; 3%nat] tstr
  | Some i =>
      hms <-! parse_hh_mm_ss [6%nat; 3%nat] (substring 0 i tstr) ;;
      '(oh, om, os) <-! parse_hh_mm_ss [6%nat]
          (substring (S i) (String.length tstr) tstr) ;;
      if oh * 3600 + om * 60 + os <? 86400 then Ret hms else Raise ValueError
  end.

Definition fromisoformat (s : string) : exc datetime :=
  match re_match iso_date_re s with
  | None => Raise ValueError
  | Some (d, rest) =>
      let y := int_of_digits_acc 0 (substring 0 4 d) in
      match rest with
      | EmptyString => new_datetime y (field2 d 5) (field2 d 8) 0 0 0
      | String _ tstr =>
          '(hh, mm, ss) <-! parse_isoformat_time tstr ;;
          new_datetime y (field2 d 5) (field2 d 8) hh mm ss
      end
  end.

(** [s.replace('Z', '+00:00')] *)
Fixpoint replace_Z (s : string) : string :=
  match s with
  | EmptyString => EmptyString
  | String c r =>
      if Ascii.eqb c "Z" then "+00:00" ++ replace_Z r else String c (replace_Z r)
  end.

(** ** The program's effects

    A computation reads the clock, performs remote calls and may raise.
    The state counts the clock readings and logs the remote calls; it
    survives an exception, as it does in Python. *)

Inductive call : Type :=
| CreateSession (user_id : string)
| RunConversation (session_id : pyval) (user_id : string).

Record state : Type := mkstate {
  clock_reads : nat;
  requests : list call
}.

Definition initial : state := mkstate O [].

Definition M (A : Type) : Type := state -> exc A * state.

Definition ret {A} (a : A) : M A := fun st => (Ret a, st).
Definition raise {A} (e : exn) : M A := fun st => (Raise e, st).
Definition bind {A B} (m : M A) (k : A -> M B) : M B :=
  fun st => match m st with
            | (Ret a, st') => k a st'
            | (Raise e, st') => (Raise e, st')
            end.
Definition lift {A} (r : exc A) : M A := fun st => (r, st).

(** [try: m  except <classes>: h]; an exception outside the classes goes on. *)
Definition try_except {A} (m : M A) (catches : exn -> bool) (h : exn -> M A)
  : M A :=
  fun st => match m st with
            | (Raise e, st') => if catches e then h e st' else (Raise e, st')
            | r => r
            end.

Module MNotations.
  Notation "x <- m ;; k" := (bind m (fun x => k))
    (at level 61, m at next level, right associativity).
End MNotations.
Import MNotations.

(** The class test of an [except] clause. *)
Definition is_ValueError (e : exn) : bool :=
  match e with ValueError | JSONDecodeError => true | _ => false end.

Definition is_ValueError_IndexError_AttributeError (e : exn) : bool :=
  match e with
  | ValueError | JSONDecodeError | IndexError | AttributeError => true
  | _ => false
  end.

(** [except Exception] *)
Definition is_Exception (e : exn) : bool := true.

(** ** Operations on Python values *)

(** [bool(v)].  A float is false when it is zero: when its digits are all
    zero or the number is too small for a double (at most 2^-1075). *)
Definition significand_exponent (lexeme : string) : Z * Z :=
  match re_match number_int_re lexeme with
  | None => (1, 0)                              (* NaN and the infinities *)
  | Some (integer, r1) =>
      let '(frac, r2) := match re_match number_frac_re r1 with
                         | Some (String _ f, r) => (f, r)
                         | _ => (EmptyString, r1) end in
      let e := match r2 with
               | String _ (String "-" ds) => - int_of_digits_acc 0 ds
               | String _ (String "+" ds) => int_of_digits_acc 0 ds
               | String _ ds => int_of_digits_acc 0 ds
               | EmptyString => 0
               end in
      let digits := match integer with String "-" r => r | _ => integer end in
      (int_of_digits_acc 0 (digits ++ frac), e - Z.of_nat (String.length frac))
  end.

Definition float_is_zero (lexeme : string) : bool :=
  let '(m, e) := significand_exponent lexeme in
  if 0 <=? e then m =? 0 else m * 2 ^ 1075 <=? 10 ^ (- e).

Definition truthy (v : pyval) : bool :=
  match v with
  | PNone => false
  | PBool b => b
  | PInt n => negb (n =? 0)
  | PFloat x => negb (float_is_zero x)
  | PStr s => negb (String.eqb s EmptyString)
  | PList l => match l with [] => false | _ => true end
  | PDict d => match d with [] => false | _ => true end
  end.

(** [v[k]] for a string [k] *)
Definition getitem_str (v : pyval) (k : string) : exc pyval :=
  match v with
  | PDict d => match dict_get k d with Some x => Ret x | None => Raise KeyError end
  | _ => Raise TypeError
  end.

(** [v[0]] *)
Definition getitem_0 (v : pyval) : exc pyval :=
  match v with
  | PList (x :: _) => Ret x
  | PList [] => Raise IndexError
  | PStr (String c _) => Ret (PStr (String c EmptyString))
  | PStr EmptyString => Raise IndexError
  | PDict _ => Raise KeyError
  | _ => Raise TypeError
  end.

(** [v.get(k)] *)
Definition py_get (v : pyval) (k : string) : exc pyval :=
  match v with
  | PDict d => Ret (match dict_get k d with Some x => x | None => PNone end)
  | _ => Raise AttributeError
  end.

(** [k in v] for a string [k] *)
Definition py_in (k : string) (v : pyval) : exc bool :=
  match v with
  | PDict d => Ret (match dict_get k d with Some _ => true | None => false end)
  | PList l =>
      Ret (existsb (fun x => match x with PStr s => String.eqb s k | _ => false end) l)
  | PStr s => Ret (contains k s)
  | _ => Raise TypeError
  end.

Fixpoint chars (s : string) : list pyval :=
  match s with
  | EmptyString => []
  | String c r => PStr (String c EmptyString) :: chars r
  end.

(** The items a [for] loop over [v] visits. *)
Definition py_iter (v : pyval) : exc (list pyval) :=
  match v with
  | PList l => Ret l
  | PStr s => Ret (chars s)
  | PDict d => Ret (map (fun kv => PStr (fst kv)) d)
  | _ => Raise TypeError
  end.

(** ** The functions of the module *)

Inductive HttpBody : Type :=
| BodyText (s : string)
| BodyJson (v : pyval)      (* json.dumps(v, indent=2) *)
| BodyError (e : exn).      (* f"An unexpected error occurred: {e}" *)

Record HttpResponse : Type := mkHttpResponse {
  body : HttpBody;
  status_code : Z;
  mimetype : string
}.

(** The world around one invocation: the successive readings of
    [datetime.now(timezone.utc)], the identifier [uuid.uuid4()] draws, and
    what the two remote calls answer (a decoded JSON body, or an exception
    of [requests]). *)
Record env : Type := mkenv {
  utcnow : nat -> datetime;
  uuid4 : string;
  post_sessions : string -> exc pyval;
  post_run : pyval -> string -> exc pyval
}.

Section Handler.

Variable E : env.

(** [datetime.now(timezone.utc)] *)
Definition datetime_now : M datetime :=
  fun st => (Ret (utcnow E (clock_reads st)),
             mkstate (S (clock_reads st)) (requests st)).

(** The pattern \d+ *)
Definition digits_re : regex := RPlus RDigit.

Definition parse_date (date_string : pyval) : M string :=
  t <- datetime_now ;;
  let current_date_str := strftime_Ymd t in
  match date_string with
  | PStr date_string =>
      let date_string := strip date_string in
      now <- datetime_now ;;
      if contains "ago" date_string then
        try_except
          (let parts := split date_string in
           p0 <- lift (match parts with p :: _ => Ret p | [] => Raise IndexError end) ;;
           digits <- lift (match re_search digits_re p0 with
                           | Some m => Ret m
                           | None => Raise AttributeError
                           end) ;;
           value <- lift (py_int digits) ;;
           unit <- lift (match parts with
                         | _ :: String c _ :: _ => Ret (py_lower c)
                         | _ => Raise IndexError
                         end) ;;
           if Ascii.eqb unit "h" then
             delta <- lift (new_timedelta 0 value 0) ;;
             past_date <- lift (datetime_sub now delta) ;;
             ret (strftime_Ymd past_date)
           else if Ascii.eqb unit "d" then
             delta <- lift (new_timedelta value 0 0) ;;
             past_date <- lift (datetime_sub now delta) ;;
             ret (strftime_Ymd past_date)
           else if Ascii.eqb unit "m" then
             delta <- lift (new_timedelta 0 0 value) ;;
             past_date <- lift (datetime_sub now delta) ;;
             ret (strftime_Ymd past_date)
           else ret current_date_str)
          is_ValueError_IndexError_AttributeError
          (fun _ => ret current_date_str)
      else
        try_except
          (parsed_date <- lift (strptime_b_d_Y
                                  (date_string ++ " " ++ str_of_Z (year now))) ;;
           ret (strftime_Ymd parsed_date))
          is_ValueError
          (fun _ =>
             try_except
               (parsed_date <- lift (fromisoformat (replace_Z date_string)) ;;
                ret (strftime_Ymd parsed_date))
               is_ValueError
               (fun _ => ret current_date_str))
  | _ => ret current_date_str
  end.

Definition create_session (user_id : string) : M pyval :=
  fun st => (post_sessions E user_id,
             mkstate (clock_reads st) (requests st ++ [CreateSession user_id])).

Definition run_conversation (session_id : pyval) (user_id : string) : M pyval :=
  fun st => (post_run E session_id user_id,
             mkstate (clock_reads st)
                     (requests st ++ [RunConversation session_id user_id])).

(** The pattern }\s*{ *)
Definition missing_comma_re : regex :=
  RSeq (RLit "}") (RSeq (RStar RSpace) (RLit "{")).

Definition extract_news_content (response : pyval) : M pyval :=
  try_except
    (match response with
     | PList (first_message :: _) =>
         content <- lift (getitem_str first_message "content") ;;
         parts <- lift (getitem_str content "parts") ;;
         part <- lift (getitem_0 parts) ;;
         raw_content <- lift (getitem_str part "text") ;;
         match raw_content with
         | PStr raw_content =>
             let json_start_index := find "{" raw_content in
             let json_end_index := rfind "}" raw_content in
             if (json_start_index =? -1) || (json_end_index =? -1) then ret PNone
             else
               let json_string :=
                 slice raw_content json_start_index (json_end_index + 1) in
               let fixed_json_string :=
                 re_sub missing_comma_re "}, {" json_string in
               news_data <- lift (json_loads fixed_json_string) ;;
               ret news_data
         | _ => raise AttributeError
         end
     | _ => ret PNone
     end)
    is_Exception
    (fun _ => ret PNone).

(** The loop [for article in ...: article['date'] = parse_date(article.get('date'))];
    the result lists the articles as the loop leaves them. *)
Fixpoint normalize_articles (articles : list pyval) : M (list pyval) :=
  match articles with
  | [] => ret []
  | article :: rest =>
      date <- lift (py_get article "date") ;;
      normalized <- parse_date date ;;
      article' <- lift (match article with
                        | PDict d => Ret (PDict (dict_set "date" (PStr normalized) d))
                        | _ => Raise TypeError
                        end) ;;
      rest' <- normalize_articles rest ;;
      ret (article' :: rest')
  end.

Definition main : M HttpResponse :=
  try_except
    (let user_id := uuid4 E in
     session_response <- create_session user_id ;;
     session_id <- lift (py_get session_response "id") ;;
     if truthy session_id then
       conversation_response <- run_conversation session_id user_id ;;
       news_data <- extract_news_content conversation_response ;;
       has_news <- (if truthy news_data then lift (py_in "news" news_data)
                    else ret false) ;;
       if has_news then
         news <- lift (getitem_str news_data "news") ;;
         articles <- lift (py_iter news) ;;
         articles' <- normalize_articles articles ;;
         let news_data' :=
           match news_data, news with
           | PDict d, PList _ => PDict (dict_set "news" (PList articles') d)
           | _, _ => news_data
           end in
         ret (mkHttpResponse (BodyJson news_data') 200 "application/json")
       else
         ret (mkHttpResponse (BodyText "Failed to parse news data from response")
                             500 "text/plain")
     else
       ret (mkHttpResponse (BodyText "Failed to get session ID from response")
                           500 "text/plain"))
    is_Exception
    (fun e => ret (mkHttpResponse (BodyError e) 500 "text/plain")).

End Handler.

(** * Properties *)

(** ** Auxiliary definitions for the statements *)

(** A reply of the agent whose first message carries [s] at
    content -> parts[0] -> text. *)
Definition reply (s : string) : pyval :=
  PList [PDict [("content", PDict [("parts", PList [PDict [("text", PStr s)]])])]].

(** The text at content -> parts[0] -> text of a message. *)
Definition reply_text (message : pyval) : exc pyval :=
  content <-! getitem_str message "content" ;;
  parts <-! getitem_str content "parts" ;;
  part <-! getitem_0 parts ;;
  getitem_str part "text".

(** The slice from the first opening brace to the last closing brace, after
    the comma repair. *)
Definition repaired_slice (raw : string) : string :=
  re_sub missing_comma_re "}, {" (slice raw (find "{" raw) (rfind "}" raw + 1)).

(** A world whose clock always reads [t]. *)
Definition frozen (t : datetime) : env :=
  mkenv (fun _ => t) "user" (fun _ => Raise RequestException)
        (fun _ _ => Raise RequestException).

(** A string of exactly [n] decimal digits. *)
Fixpoint is_digits (n : nat) (s : string) : bool :=
  match n, s with
  | O, EmptyString => true
  | S n', String c r => py_isdigit c && is_digits n' r
  | _, _ => false
  end.

(** The shape YYYY-MM-DD: four digits, a hyphen, two digits, a hyphen, two
    digits, and nothing else. *)
Definition is_Ymd (s : string) : bool :=
  is_digits 4 (substring 0 4 s) && String.eqb (substring 4 1 s) "-"
  && is_digits 2 (substring 5 2 s) && String.eqb (substring 7 1 s) "-"
  && is_digits 2 (substring 8 2 s) && (String.length s =? 10)%nat.

(** Year, month and day within the bounds of the calendar. *)
Definition date_in_range (t : datetime) : bool :=
  (1 <=? year t) && (year t <=? 9999) && (1 <=? month t) && (month t <=? 12)
  && (1 <=? day t) && (day t <=? 31).

(** Every reading of the clock is a [datetime]. *)
Definition clock_valid (E : env) : Prop :=
  forall n, valid_datetime (utcnow E n) = true.

(** One 400-year cycle of [_ord2ymd]: day [r + 1] of the calendar lies in
    the years 1 to 400, in a month and on a day within bounds, and in the
    years up to 399 when [r] is at most 145730. *)
Definition check_ord2ymd (r : Z) : bool :=
  let '(y, m, d) := _ord2ymd (r + 1) in
  (1 <=? y) && (y <=? 400) && ((145730 <? r) || (y <=? 399))
  && (1 <=? m) && (m <=? 12) && (1 <=? d) && (d <=? 31).

(** The year printed by [strftime_Ymd] has four digits. *)
Definition check_year_digits (y : Z) : bool :=
  is_digits 4 (zfill 4 (str_of_Z y)).

(** Months and days are printed with two digits. *)
Definition check_two_digits (n : Z) : bool :=
  is_digits 2 (zfill 2 (str_of_Z n)).

(** The keys of a dict, in order. *)
Definition keys (d : dict) : list string := map fst d.

(** [all_from lo n f]: [f] holds on [lo], [lo + 1], ..., [lo + n - 1]. *)
Fixpoint all_from (lo : Z) (n : nat) (f : Z -> bool) : bool :=
  match n with
  | O => true
  | S k => f lo && all_from (lo + 1) k f
  end.

(** [all_between lo hi f]: [f] holds on every integer from [lo] to [hi]. *)
Definition all_between (lo hi : Z) (f : Z -> bool) : bool :=
  all_from lo (Z.to_nat (hi - lo + 1)) f.

(** In year [y], the string Aug 6 with the year appended parses, and is
    printed as y-08-06. *)
Definition check_Aug_6 (y : Z) : bool :=
  match strptime_b_d_Y ("Aug 6" ++ " " ++ str_of_Z y) with
  | Ret t => String.eqb (strftime_Ymd t) (str_of_Z y ++ "-08-06")
  | Raise _ => false
  end.

(** The ways in which a response carries no payload. *)
Inductive no_payload : pyval -> Prop :=
| not_a_nonempty_list (response : pyval) :
    (forall m rest, response <> PList (m :: rest)) -> no_payload response
| path_missing (m : pyval) (rest : list pyval) (e : exn) :
    reply_text m = Raise e -> no_payload (PList (m :: rest))
| no_opening_brace (m : pyval) (rest : list pyval) (raw : string) :
    reply_text m = Ret (PStr raw) ->
    ~ In "{"%char (list_ascii_of_string raw) -> no_payload (PList (m :: rest))
| no_closing_brace (m : pyval) (rest : list pyval) (raw : string) :
    reply_text m = Ret (PStr raw) ->
    ~ In "}"%char (list_ascii_of_string raw) -> no_payload (PList (m :: rest))
| text_not_a_string (m : pyval) (rest : list pyval) (v : pyval) :
    reply_text m = Ret v -> (forall raw, v <> PStr raw) ->
    no_payload (PList (m :: rest))
| slice_not_json (m : pyval) (rest : list pyval) (raw : string) (e : exn) :
    reply_text m = Ret (PStr raw) ->
    json_loads (repaired_slice raw) = Raise e -> no_payload (PList (m :: rest)).

(** The state when the loop over the articles starts: the clock has not
    been read, and the two remote calls are logged. *)
Definition after_calls (E : env) (sid : pyval) (st : state) : state :=
  mkstate (clock_reads st)
          ((requests st ++ [CreateSession (uuid4 E)])
             ++ [RunConversation sid (uuid4 E)]).

(** One more reading of the clock. *)
Definition tick (st : state) : state :=
  mkstate (S (clock_reads st)) (requests st).





(** A world whose session response has no id. *)
Definition world_without_id : env :=
  mkenv (fun _ => mkdatetime 2025 8 6 3 0 5) "user"
        (fun _ => Ret (PDict [("detail", PStr "unavailable")]))
        (fun _ _ => Ret (reply "unused")).

(** A world whose second article has no date. *)
Definition world_undated : env :=
  mkenv (fun _ => mkdatetime 2025 8 6 3 0 5) "user"
        (fun _ => Ret (PDict [("id", PStr "session-1")]))
        (fun _ _ => Ret (reply (text
           "{'news':[{'title':'A','date':'2 days ago'},{'title':'B'},{'title':'C','date':'N/A'}]}"))).


(** *** Vocabulary of the further properties *)

(** Every character of [s] satisfies [p]. *)
Fixpoint all_chars (p : ascii -> bool) (s : string) : bool :=
  match s with
  | EmptyString => true
  | String c r => p c && all_chars p r
  end.

(** A character that is not white space. *)
Definition not_space (c : ascii) : bool := negb (py_isspace c).

(** The date [h] hours, [d] days and [m] minutes before [now]. *)
Definition earlier (now : datetime) (d h m : Z) : exc string :=
  delta <-! new_timedelta d h m ;;
  past <-! datetime_sub now delta ;;
  Ret (strftime_Ymd past).






(** No closing brace in [s] is followed, after optional white space, by an
    opening brace. *)
Fixpoint gap_free (s : string) : bool :=
  match re_match missing_comma_re s with
  | Some _ => false
  | None =>
      match s with
      | EmptyString => true
      | String _ t => gap_free t
      end
  end.

(** [sid] is the truthy identifier the session response carries. *)
Definition issued_session_id (E : env) (sid : pyval) : Prop :=
  exists sr, post_sessions E (uuid4 E) = Ret sr /\ py_get sr "id" = Ret sid
             /\ truthy sid = true.

(** A world whose session response carries an empty id. *)
Definition world_empty_id : env :=
  mkenv (fun _ => mkdatetime 2025 8 6 3 0 5) "user"
        (fun _ => Ret (PDict [("id", PStr "")]))
        (fun _ _ => Ret (reply "unused")).

(** A world in which the conversation call fails. *)
Definition world_run_down : env :=
  mkenv (fun _ => mkdatetime 2025 8 6 3 0 5) "user"
        (fun _ => Ret (PDict [("id", PStr "session-1")]))
        (fun _ _ => Raise RequestException).

(** A world whose reply holds an object without news. *)
Definition world_no_news : env :=
  mkenv (fun _ => mkdatetime 2025 8 6 3 0 5) "user"
        (fun _ => Ret (PDict [("id", PStr "session-1")]))
        (fun _ _ => Ret (reply (text "{'items':[]}"))).

(** A world whose second item under news is a string. *)
Definition world_bad_article : env :=
  mkenv (fun _ => mkdatetime 2025 8 6 3 0 5) "user"
        (fun _ => Ret (PDict [("id", PStr "session-1")]))
        (fun _ _ => Ret (reply (text "{'news':[{'title':'A'},'oops']}"))).

(** A world whose news is an empty list. *)
Definition world_empty_news : env :=
  mkenv (fun _ => mkdatetime 2025 8 6 3 0 5) "user"
        (fun _ => Ret (PDict [("id", PStr "session-1")]))
        (fun _ _ => Ret (reply (text "{'news':[],'topic':'EV'}"))).

(** ** Lemmas on the library models *)

Lemma all_from_spec (f : Z -> bool) (n : nat) :
  forall lo, all_from lo n f = true ->
  forall z, lo <= z < lo + Z.of_nat n -> f z = true.
Proof.
  induction n as [|k IH]; intros lo H z Hz.
  - simpl in Hz. lia.
  - simpl in H. apply andb_true_iff in H. destruct H as [H0 H1].
    destruct (Z.eq_dec z lo) as [->|Hne]; [exact H0|].
    apply (IH (lo + 1) H1). lia.
Qed.

Lemma all_between_spec (f : Z -> bool) (lo hi : Z) :
  all_between lo hi f = true -> forall z, lo <= z <= hi -> f z = true.
Proof.
  unfold all_between. intros H z Hz.
  apply (all_from_spec f _ lo H). rewrite Z2Nat.id; lia.
Qed.

Lemma find_absent (c : ascii) (s : string) :
  ~ In c (list_ascii_of_string s) -> find c s = -1.
Proof.
  induction s as [|d r IH]; simpl; intros H; [reflexivity|].
  destruct (Ascii.eqb_spec d c) as [->|Hne].
  - exfalso. apply H. now left.
  - rewrite IH by (intros Hin; apply H; now right). reflexivity.
Qed.

Lemma rfind_absent (c : ascii) (s : string) :
  ~ In c (list_ascii_of_string s) -> rfind c s = -1.
Proof.
  induction s as [|d r IH]; simpl; intros H; [reflexivity|].
  rewrite IH by (intros Hin; apply H; now right). simpl.
  destruct (Ascii.eqb_spec d c) as [->|Hne]; [|reflexivity].
  exfalso. apply H. now left.
Qed.

Lemma find_nonneg (c : ascii) (s : string) : -1 <= find c s.
Proof.
  induction s as [|d r IH]; simpl; [lia|].
  destruct (Ascii.eqb d c); [lia|].
  destruct (Z.eqb_spec (find c r) (-1)); lia.
Qed.

(** ** Dictionaries: what an item assignment changes *)


Lemma dict_get_set_other (k k0 : string) (v : pyval) (d : dict) :
  k0 <> k -> dict_get k0 (dict_set k v d) = dict_get k0 d.
Proof.
  intros Hne. induction d as [|[k' v'] r IH]; simpl.
  - destruct (String.eqb_spec k k0); [congruence|reflexivity].
  - destruct (String.eqb_spec k' k) as [->|Hk]; simpl.
    + destruct (String.eqb_spec k k0); [congruence|reflexivity].
    + destruct (String.eqb_spec k' k0); [reflexivity|exact IH].
Qed.

Lemma keys_set_present (k : string) (v x : pyval) (d : dict) :
  dict_get k d = Some x -> keys (dict_set k v d) = keys d.
Proof.
  unfold keys. induction d as [|[k' v'] r IH]; simpl; [discriminate|].
  destruct (String.eqb_spec k' k) as [->|Hk]; simpl; intros H.
  - reflexivity.
  - now rewrite IH.
Qed.

Lemma dict_set_absent (k : string) (v : pyval) (d : dict) :
  dict_get k d = None -> dict_set k v d = (d ++ [(k, v)])%list.
Proof.
  induction d as [|[k' v'] r IH]; simpl; [reflexivity|].
  destruct (String.eqb_spec k' k) as [->|Hk]; [discriminate|].
  intros H. now rewrite IH.
Qed.


(** ** [parse_date] *)

(** The unit code is the first character of the second token.  In a
    two-token string such as 6h ago the second token is the word ago, the
    code is a, and the function answers with the current date, whatever
    the first token says. *)
Lemma parse_date_unit_from_second_token (E : env) (st : state) :
  let today := strftime_Ymd (utcnow E (clock_reads st)) in
  let st' := mkstate (2 + clock_reads st) (requests st) in
  parse_date E (PStr "6h ago") st = (Ret today, st') /\
  parse_date E (PStr "3d ago") st = (Ret today, st') /\
  parse_date E (PStr "10m ago") st = (Ret today, st').
Proof.
  repeat split; reflexivity.
Qed.

(** C1.  At 2025-08-06 00:05:00 UTC the dates six hours, three days and ten
    minutes earlier are 2025-08-05, 2025-08-03 and 2025-08-05, and these are
    what [parse_date] returns when the unit is a token of its own; for the
    two-token strings 6h ago, 3d ago and 10m ago it returns 2025-08-06, the
    current date. *)
Theorem parse_date_two_token_relative_is_today :
  let T := mkdatetime 2025 8 6 0 5 0 in
  let run s := fst (parse_date (frozen T) (PStr s) initial) in
  let earlier d h m :=
    delta <-! new_timedelta d h m ;;
    past <-! datetime_sub T delta ;; Ret (strftime_Ymd past) in
  (earlier 0 6 0 = Ret "2025-08-05" /\ run "6 hours ago" = Ret "2025-08-05"
   /\ run "6h ago" = Ret "2025-08-06") /\
  (earlier 3 0 0 = Ret "2025-08-03" /\ run "3 days ago" = Ret "2025-08-03"
   /\ run "3d ago" = Ret "2025-08-06") /\
  (earlier 0 0 10 = Ret "2025-08-05" /\ run "10 minutes ago" = Ret "2025-08-05"
   /\ run "10m ago" = Ret "2025-08-06").
Proof.
  repeat split; vm_compute; reflexivity.
Qed.

(** C3.  A relative date further back than year 1 makes [now - delta]
    raise [OverflowError], which the [except] clause does not list: the
    exception leaves [parse_date], and the handler answers 500 for the whole
    request. *)
Theorem parse_date_overflow_escapes :
  let T := mkdatetime 2025 8 6 12 0 0 in
  fst (parse_date (frozen T) (PStr "10000000 days ago") initial)
    = Raise OverflowError /\
  is_ValueError_IndexError_AttributeError OverflowError = false /\
  let E := mkenv (fun _ => T) "user"
                 (fun _ => Ret (PDict [("id", PStr "s")]))
                 (fun _ _ => Ret (reply (text
                    "{'news':[{'title':'A','date':'10000000 days ago'}]}"))) in
  fst (main E initial) = Ret (mkHttpResponse (BodyError OverflowError) 500 "text/plain").
Proof.
  repeat split; vm_compute; reflexivity.
Qed.

Lemma check_Aug_6_all : all_between 1000 9999 check_Aug_6 = true.
Proof. vm_compute. reflexivity. Qed.

(** C7.  When the clock reads a year Y of four digits, [parse_date] turns
    Aug 6 into Y-08-06. *)
Theorem parse_date_Aug_6 (E : env) (st : state) :
  let Y := year (utcnow E (S (clock_reads st))) in
  1000 <= Y <= 9999 ->
  fst (parse_date E (PStr "Aug 6") st) = Ret (str_of_Z Y ++ "-08-06").
Proof.
  intros Y HY.
  pose proof (all_between_spec check_Aug_6 1000 9999 check_Aug_6_all Y HY) as Hc.
  unfold check_Aug_6 in Hc.
  unfold parse_date, bind, datetime_now, try_except, lift, ret. cbn [clock_reads requests fst].
  change (strip "Aug 6") with "Aug 6".
  change (contains "ago" "Aug 6") with false. cbv iota.
  fold Y.
  destruct (strptime_b_d_Y ("Aug 6" ++ " " ++ str_of_Z Y)) as [t|e]; [|discriminate].
  apply String.eqb_eq in Hc. cbn [fst]. now rewrite Hc.
Qed.

Lemma parse_date_Aug_6_witness :
  1000 <= 2025 <= 9999 /\
  fst (parse_date (frozen (mkdatetime 2025 11 4 9 30 0)) (PStr "Aug 6") initial)
    = Ret "2025-08-06".
Proof.
  split; [lia|].
  apply (parse_date_Aug_6 (frozen (mkdatetime 2025 11 4 9 30 0)) initial).
  simpl. lia.
Defined.

(** ** Dates are printed in the shape YYYY-MM-DD *)

Lemma check_year_digits_all : all_between 1 9999 check_year_digits = true.
Proof. vm_compute. reflexivity. Qed.

Lemma check_two_digits_all : all_between 1 31 check_two_digits = true.
Proof. vm_compute. reflexivity. Qed.

Lemma check_ord2ymd_all : all_between 0 146096 check_ord2ymd = true.
Proof. vm_compute. reflexivity. Qed.

Lemma is_digits_4_inv (s : string) :
  is_digits 4 s = true ->
  exists a b c d, s = String a (String b (String c (String d EmptyString)))
                  /\ py_isdigit a = true /\ py_isdigit b = true
                  /\ py_isdigit c = true /\ py_isdigit d = true.
Proof.
  destruct s as [|a [|b [|c [|d [|? ?]]]]]; simpl; try discriminate;
    try (intros H; repeat (apply andb_true_iff in H; destruct H as [? H]);
         discriminate).
  intros H. repeat (apply andb_true_iff in H; destruct H as [? H]).
  exists a, b, c, d. auto.
Qed.

Lemma is_digits_2_inv (s : string) :
  is_digits 2 s = true ->
  exists a b, s = String a (String b EmptyString)
              /\ py_isdigit a = true /\ py_isdigit b = true.
Proof.
  destruct s as [|a [|b [|? ?]]]; simpl; try discriminate;
    try (intros H; repeat (apply andb_true_iff in H; destruct H as [? H]);
         discriminate).
  intros H. repeat (apply andb_true_iff in H; destruct H as [? H]).
  exists a, b. auto.
Qed.

Lemma strftime_Ymd_shape (t : datetime) :
  date_in_range t = true -> is_Ymd (strftime_Ymd t) = true.
Proof.
  unfold date_in_range. intros H.
  repeat (apply andb_true_iff in H; destruct H as [H ?]).
  repeat match goal with
         | H : (_ <=? _) = true |- _ => apply Z.leb_le in H
         end.
  assert (Hy : check_year_digits (year t) = true)
    by (apply (all_between_spec check_year_digits 1 9999 check_year_digits_all (year t)); lia).
  assert (Hm : check_two_digits (month t) = true)
    by (apply (all_between_spec check_two_digits 1 31 check_two_digits_all (month t)); lia).
  assert (Hd : check_two_digits (day t) = true)
    by (apply (all_between_spec check_two_digits 1 31 check_two_digits_all (day t)); lia).
  unfold check_year_digits in Hy. unfold check_two_digits in Hm, Hd.
  destruct (is_digits_4_inv _ Hy) as (y1 & y2 & y3 & y4 & Ey & ? & ? & ? & ?).
  destruct (is_digits_2_inv _ Hm) as (m1 & m2 & Em & ? & ?).
  destruct (is_digits_2_inv _ Hd) as (d1 & d2 & Ed & ? & ?).
  unfold strftime_Ymd. rewrite Ey, Em, Ed.
  unfold is_Ymd. simpl.
  repeat match goal with H : py_isdigit _ = true |- _ => rewrite H; clear H end.
  reflexivity.
Qed.

(** [_ord2ymd] repeats every 146097 days, 400 years later. *)
Lemma _ord2ymd_cycle (n : Z) :
  _ord2ymd n =
  let '(y, m, d) := _ord2ymd ((n - 1) mod 146097 + 1) in
  (y + 400 * ((n - 1) / 146097), m, d).
Proof.
  unfold _ord2ymd.
  replace ((n - 1) mod 146097 + 1 - 1) with ((n - 1) mod 146097) by lia.
  rewrite Z.mod_mod by lia.
  rewrite (Z.div_small ((n - 1) mod 146097) 146097)
    by (apply Z.mod_pos_bound; lia).
  set (r := (n - 1) mod 146097). set (q := (n - 1) / 146097).
  cbv zeta.
  repeat match goal with
         | |- context [if ?c then _ else _] => destruct c
         end; f_equal; try f_equal; lia.
Qed.

Lemma _ord2ymd_in_range (n : Z) :
  0 < n <= MAXORDINAL ->
  let '(y, m, d) := _ord2ymd n in
  1 <= y <= 9999 /\ 1 <= m <= 12 /\ 1 <= d <= 31.
Proof.
  unfold MAXORDINAL. intros Hn. rewrite _ord2ymd_cycle.
  pose proof (Z.mod_pos_bound (n - 1) 146097 ltac:(lia)) as Hr.
  pose proof (Z.div_mod (n - 1) 146097 ltac:(lia)) as Hq.
  pose proof (all_between_spec check_ord2ymd 0 146096 check_ord2ymd_all
                ((n - 1) mod 146097) ltac:(lia)) as Hc.
  unfold check_ord2ymd in Hc.
  destruct (_ord2ymd ((n - 1) mod 146097 + 1)) as [[y m] d].
  repeat (apply andb_true_iff in Hc; destruct Hc as [Hc ?]).
  assert (0 <= (n - 1) / 146097 < 25)
    by (split; [apply Z.div_pos; lia|apply Z.div_lt_upper_bound; lia]).
  repeat match goal with
         | H : (_ <=? _) = true |- _ => apply Z.leb_le in H
         | H : _ || _ = true |- _ => apply orb_true_iff in H
         | H : (_ <? _) = true \/ _ |- _ => rewrite Z.ltb_lt in H
         | H : _ \/ (_ <=? _) = true |- _ => rewrite Z.leb_le in H
         end.
  lia.
Qed.

(** What the library calls can raise, and what they return. *)








Lemma new_timedelta_raises (d h m : Z) (e : exn) :
  new_timedelta d h m = Raise e -> e = OverflowError.
Proof. unfold new_timedelta. destruct (_ <=? _); congruence. Qed.

Lemma datetime_sub_inv (t : datetime) (delta : timedelta) :
  match datetime_sub t delta with
  | Ret t' => date_in_range t' = true
  | Raise e => e = OverflowError
  end.
Proof.
  unfold datetime_sub.
  destruct ((0 <? _) && (_ <=? MAXORDINAL)) eqn:H; [|reflexivity].
  apply andb_true_iff in H. destruct H as [H0 H1].
  apply Z.ltb_lt in H0. apply Z.leb_le in H1.
  pose proof (_ord2ymd_in_range _ (conj H0 H1)) as Hr.
  destruct (_ord2ymd _) as [[y m] d]. unfold date_in_range. simpl.
  repeat (apply andb_true_iff; split); apply Z.leb_le; lia.
Qed.

Lemma valid_datetime_in_range (t : datetime) :
  valid_datetime t = true -> date_in_range t = true.
Proof.
  unfold valid_datetime, date_in_range, MINYEAR, MAXYEAR. intros H.
  repeat (apply andb_true_iff in H; destruct H as [H ?]).
  repeat match goal with
         | H : (_ <=? _) = true |- _ => apply Z.leb_le in H
         | H : (_ <? _) = true |- _ => apply Z.ltb_lt in H
         end.
  assert (Hdim : _days_in_month (year t) (month t) <= 31).
  { unfold _days_in_month, _DAYS_IN_MONTH.
    destruct ((month t =? 2) && _is_leap (year t)); [lia|].
    assert (Hm : month t = 1 \/ month t = 2 \/ month t = 3 \/ month t = 4
                 \/ month t = 5 \/ month t = 6 \/ month t = 7 \/ month t = 8
                 \/ month t = 9 \/ month t = 10 \/ month t = 11 \/ month t = 12)
      by lia.
    repeat (destruct Hm as [Hm|Hm]; [rewrite Hm; simpl; lia|]).
    rewrite Hm; simpl; lia. }
  repeat (apply andb_true_iff; split); apply Z.leb_le; lia.
Qed.


(** ** [extract_news_content] *)

(** The function neither reads the clock nor calls out, and it always
    returns: whatever its body raises is caught. *)
Lemma extract_news_content_returns (response : pyval) (st : state) :
  exists v, extract_news_content response st = (Ret v, st).
Proof.
  unfold extract_news_content, try_except, bind, lift, ret, raise.
  destruct response as [| | | | |l|]; try (now eexists).
  destruct l as [|first_message rest]; [now eexists|].
  destruct (getitem_str first_message "content") as [content|]; [|now eexists].
  destruct (getitem_str content "parts") as [parts|]; [|now eexists].
  destruct (getitem_0 parts) as [part|]; [|now eexists].
  destruct (getitem_str part "text") as [raw|]; [|now eexists].
  destruct raw as [| | | |raw| |]; try (now eexists).
  destruct ((find "{" raw =? -1) || (rfind "}" raw =? -1)); [now eexists|].
  destruct (json_loads _); now eexists.
Qed.

(** On a message that has the text, the function is decided by the two
    brace searches and by [json.loads] on the repaired slice. *)
Lemma extract_news_content_text (m : pyval) (rest : list pyval) (raw : string)
      (st : state) :
  reply_text m = Ret (PStr raw) ->
  extract_news_content (PList (m :: rest)) st =
  (Ret (if (find "{" raw =? -1) || (rfind "}" raw =? -1) then PNone
        else match json_loads (repaired_slice raw) with
             | Ret news_data => news_data
             | Raise _ => PNone
             end), st).
Proof.
  unfold reply_text, exc_bind, extract_news_content, try_except, bind, lift,
    ret, raise, repaired_slice.
  intros H.
  destruct (getitem_str m "content") as [content|]; [|discriminate].
  destruct (getitem_str content "parts") as [parts|]; [|discriminate].
  destruct (getitem_0 parts) as [part|]; [|discriminate].
  rewrite H.
  destruct ((find "{" raw =? -1) || (rfind "}" raw =? -1)); [reflexivity|].
  destruct (json_loads _); reflexivity.
Qed.

(** C5.  [extract_news_content] never raises, and returns [None] for a
    response that is not a non-empty list, whose first message lacks the
    text at content -> parts[0] -> text, whose text has no opening or no
    closing brace, or whose repaired slice is not JSON. *)
Theorem extract_news_content_never_raises (response : pyval) (st : state) :
  (exists v, extract_news_content response st = (Ret v, st)) /\
  (no_payload response -> extract_news_content response st = (Ret PNone, st)).
Proof.
  split; [apply extract_news_content_returns|].
  intros H. destruct H as [response Hl|m rest e Hp|m rest raw Ht Hb
                          |m rest raw Ht Hb|m rest v Ht Hv|m rest raw e Ht Hj].
  - unfold extract_news_content, try_except, ret.
    destruct response as [| | | | |l|]; try reflexivity.
    destruct l as [|m rest]; [reflexivity|]. now destruct (Hl m rest).
  - unfold reply_text, exc_bind in Hp.
    unfold extract_news_content, try_except, bind, lift, ret, raise.
    destruct (getitem_str m "content") as [content|]; [|reflexivity].
    destruct (getitem_str content "parts") as [parts|]; [|reflexivity].
    destruct (getitem_0 parts) as [part|]; [|reflexivity].
    now rewrite Hp.
  - rewrite (extract_news_content_text m rest raw st Ht).
    now rewrite (find_absent _ _ Hb).
  - rewrite (extract_news_content_text m rest raw st Ht).
    rewrite (rfind_absent _ _ Hb). now rewrite orb_true_r.
  - unfold reply_text, exc_bind in Ht.
    unfold extract_news_content, try_except, bind, lift, ret, raise.
    destruct (getitem_str m "content") as [content|]; [|reflexivity].
    destruct (getitem_str content "parts") as [parts|]; [|reflexivity].
    destruct (getitem_0 parts) as [part|]; [|reflexivity].
    rewrite Ht. destruct v; try reflexivity. now destruct (Hv s).
  - rewrite (extract_news_content_text m rest raw st Ht).
    rewrite Hj. now destruct (_ || _).
Qed.

Lemma extract_news_content_never_raises_witness :
  no_payload (reply "no braces here") /\
  extract_news_content (reply "no braces here") initial = (Ret PNone, initial).
Proof.
  assert (H : no_payload (reply "no braces here")).
  { apply (no_opening_brace _ _ "no braces here"); [reflexivity|].
    simpl. intros H. repeat (destruct H as [H|H]; [discriminate H|]). exact H. }
  split; [exact H|].
  exact (proj2 (extract_news_content_never_raises _ initial) H).
Defined.

(** C8.  Prose around the object is dropped: the slice from the first
    opening brace to the last closing brace is the object, and the payload
    has one article, titled A. *)
Theorem extract_news_content_prose (st : state) :
  let raw := text "Here you go:|{'news':[{'title':'A','date':'2d ago'}]}|Enjoy!" in
  slice raw (find "{" raw) (rfind "}" raw + 1)
    = text "{'news':[{'title':'A','date':'2d ago'}]}" /\
  extract_news_content (reply raw) st =
    (Ret (PDict [("news", PList [PDict [("title", PStr "A");
                                        ("date", PStr "2d ago")]])]), st).
Proof.
  split; vm_compute; reflexivity.
Qed.

(** C2, as stated, fails: with the two objects at the top level the
    repaired slice is an object, a comma and an object, which is not one
    JSON value, and the function returns [None]. *)
Lemma extract_news_content_top_level_pair_is_None :
  let raw := text "{'a':1} {'b':2}" in
  repaired_slice raw = text "{'a':1}, {'b':2}" /\
  json_loads (repaired_slice raw) = Raise JSONDecodeError /\
  extract_news_content (reply raw) initial = (Ret PNone, initial).
Proof.
  repeat split; vm_compute; reflexivity.
Qed.

(** C2, amended.  The repair rewrites the gap between the two objects to a
    closing brace, a comma, a space and an opening brace; when the objects
    are neighbours in an array inside the enclosing object, the repaired
    slice parses and the array holds the two siblings. *)
Theorem extract_news_content_missing_comma (st : state) :
  let raw := text "{'news':[{'a':1} {'b':2}]}" in
  json_loads raw = Raise JSONDecodeError /\
  repaired_slice raw = text "{'news':[{'a':1}, {'b':2}]}" /\
  extract_news_content (reply raw) st =
    (Ret (PDict [("news", PList [PDict [("a", PInt 1)]; PDict [("b", PInt 2)]])]),
     st).
Proof.
  repeat split; vm_compute; reflexivity.
Qed.

(** C9.  The repair does not know about string literals: a text that is
    valid JSON as it stands, with a closing brace, a space and an opening
    brace inside a string, comes back with that string rewritten. *)
Theorem extract_news_content_rewrites_literals :
  exists (raw : string) (written returned : string),
    json_loads raw = Ret (PDict [("title", PStr written)]) /\
    written = "} {" /\
    extract_news_content (reply raw) initial
      = (Ret (PDict [("title", PStr returned)]), initial) /\
    returned = "}, {" /\
    returned <> written.
Proof.
  exists (text "{'title':'} {'}"), "} {", "}, {".
  repeat split; try (vm_compute; reflexivity). discriminate.
Qed.

(** ** [main] *)


Lemma normalize_articles_app (E : env) (l1 l2 : list pyval) :
  forall st l1' st1 l2' st2,
    normalize_articles E l1 st = (Ret l1', st1) ->
    normalize_articles E l2 st1 = (Ret l2', st2) ->
    normalize_articles E (l1 ++ l2) st = (Ret (l1' ++ l2')%list, st2).
Proof.
  induction l1 as [|a rest IH]; intros st l1' st1 l2' st2; simpl.
  - unfold ret. intros [= <- <-] H. exact H.
  - intros H1 H2. unfold bind, lift, ret in H1 |- *.
    destruct a as [| | | | | |d]; try discriminate H1.
    cbn [py_get] in H1 |- *.
    destruct (parse_date E _ st) as [[s|e] st0]; [|discriminate].
    destruct (normalize_articles E rest st0) as [[rest'|e] st3] eqn:Hn;
      [|discriminate].
    injection H1 as <- <-.
    unfold bind, lift, ret in IH. now rewrite (IH _ _ _ _ _ Hn H2).
Qed.

(** An article without a date takes the current date, at the end. *)
Lemma normalize_articles_undated (E : env) (d : dict) (rest rest' : list pyval)
      (st st' : state) :
  dict_get "date" d = None ->
  normalize_articles E rest (tick st) = (Ret rest', st') ->
  normalize_articles E (PDict d :: rest) st =
  (Ret (PDict (d ++ [("date", PStr (strftime_Ymd (utcnow E (clock_reads st))))])
          :: rest'), st').
Proof.
  intros Hd Hn. cbn [normalize_articles py_get].
  unfold parse_date, datetime_now, bind, lift, ret.
  rewrite Hd. fold (tick st). rewrite Hn.
  now rewrite (dict_set_absent _ _ _ Hd).
Qed.

(** A loop that ends normally over the items of a value that is not a list
    has visited nothing. *)
Lemma normalize_articles_not_list (E : env) (news : pyval) (items items' : list pyval)
      (st st' : state) :
  py_iter news = Ret items -> (forall l, news <> PList l) ->
  normalize_articles E items st = (Ret items', st') -> items = [].
Proof.
  intros Hit Hl Hn.
  destruct news as [| | | |s|l|d]; try discriminate Hit.
  - destruct s; simpl in Hit; injection Hit as <-; [reflexivity|discriminate Hn].
  - now destruct (Hl l).
  - destruct d; simpl in Hit; injection Hit as <-; [reflexivity|discriminate Hn].
Qed.


(** The path to a 200, read backwards. *)
Lemma main_200_inv (E : env) (st st' : state) (resp : HttpResponse) :
  main E st = (Ret resp, st') -> status_code resp = 200 ->
  exists sr sid conv d news items items',
    post_sessions E (uuid4 E) = Ret sr /\
    py_get sr "id" = Ret sid /\ truthy sid = true /\
    post_run E sid (uuid4 E) = Ret conv /\
    extract_news_content conv (after_calls E sid st)
      = (Ret (PDict d), after_calls E sid st) /\
    dict_get "news" d = Some news /\
    py_iter news = Ret items /\
    normalize_articles E items (after_calls E sid st) = (Ret items', st') /\
    resp = mkHttpResponse
             (BodyJson (match news with
                        | PList _ => PDict (dict_set "news" (PList items') d)
                        | _ => PDict d
                        end)) 200 "application/json".
Proof.
  unfold main, try_except, bind, create_session, run_conversation, lift, ret.
  cbn [clock_reads requests].
  destruct (post_sessions E (uuid4 E)) as [sr|e] eqn:Hs;
    [|intros [= <- <-]; discriminate].
  destruct (py_get sr "id") as [sid|e] eqn:Hid;
    [|intros [= <- <-]; discriminate].
  destruct (truthy sid) eqn:Hsid; [|intros [= <- <-]; discriminate].
  destruct (post_run E sid (uuid4 E)) as [conv|e] eqn:Hr;
    [|intros [= <- <-]; discriminate].
  cbn [clock_reads requests]. fold (after_calls E sid st).
  destruct (extract_news_content_returns conv (after_calls E sid st)) as [nd Hx].
  rewrite Hx.
  destruct (truthy nd) eqn:Hnd; cbn [fst snd];
    [|intros [= <- <-]; discriminate].
  destruct (py_in "news" nd) as [[|]|e] eqn:Hin;
    try (intros [= <- <-]; discriminate).
  destruct (getitem_str nd "news") as [news|e] eqn:Hg;
    [|intros [= <- <-]; discriminate].
  destruct (py_iter news) as [items|e] eqn:Hit;
    [|intros [= <- <-]; discriminate].
  destruct (normalize_articles E items (after_calls E sid st))
    as [[items'|e] st3] eqn:Hn; [|intros [= <- <-]; discriminate].
  intros [= <- <-] _.
  destruct nd as [| | | | | |d]; try discriminate Hg.
  simpl in Hg. destruct (dict_get "news" d) as [x|] eqn:Hd; [|discriminate].
  injection Hg as ->.
  exists sr, sid, conv, d, news, items, items'.
  repeat split; try assumption; try reflexivity.
Qed.

(** The path to a 200, read forwards. *)
Lemma main_200 (E : env) (st st' : state) (sr sid conv : pyval) (d : dict)
      (news : pyval) (items items' : list pyval) :
  post_sessions E (uuid4 E) = Ret sr ->
  py_get sr "id" = Ret sid -> truthy sid = true ->
  post_run E sid (uuid4 E) = Ret conv ->
  extract_news_content conv (after_calls E sid st)
    = (Ret (PDict d), after_calls E sid st) ->
  dict_get "news" d = Some news ->
  py_iter news = Ret items ->
  normalize_articles E items (after_calls E sid st) = (Ret items', st') ->
  main E st =
  (Ret (mkHttpResponse
          (BodyJson (match news with
                     | PList _ => PDict (dict_set "news" (PList items') d)
                     | _ => PDict d
                     end)) 200 "application/json"), st').
Proof.
  intros Hs Hid Hsid Hr Hx Hd Hit Hn.
  unfold main, try_except, bind, create_session, run_conversation, lift, ret.
  rewrite Hs, Hid, Hsid, Hr. cbn [clock_reads requests].
  fold (after_calls E sid st). rewrite Hx.
  assert (Ht : truthy (PDict d) = true) by (destruct d; [discriminate|reflexivity]).
  rewrite Ht. cbn [py_in getitem_str]. rewrite Hd, Hit, Hn. reflexivity.
Qed.

(** C6.  When the session response is an object without an id, the handler
    answers 500 with the message about the session identifier, and the only
    remote call it has made is the one that created the session. *)
Theorem main_without_session_id (E : env) (st : state) (d : dict) :
  post_sessions E (uuid4 E) = Ret (PDict d) ->
  dict_get "id" d = None ->
  main E st =
  (Ret (mkHttpResponse (BodyText "Failed to get session ID from response")
                       500 "text/plain"),
   mkstate (clock_reads st) (requests st ++ [CreateSession (uuid4 E)])).
Proof.
  intros Hs Hid.
  unfold main, try_except, bind, create_session, lift, ret.
  rewrite Hs. cbn [py_get]. rewrite Hid. reflexivity.
Qed.

Lemma main_without_session_id_witness :
  main world_without_id initial =
  (Ret (mkHttpResponse (BodyText "Failed to get session ID from response")
                       500 "text/plain"),
   mkstate O [CreateSession "user"]).
Proof.
  apply (main_without_session_id world_without_id initial
           [("detail", PStr "unavailable")]); reflexivity.
Defined.



(** C10.  An article without a date does not stop the handler: as long as
    the loop gets through the articles before and after it, the handler
    answers 200, and that article has gained a date at the end of its
    fields, the current UTC date as the clock read it when the loop reached
    the article. *)
Theorem main_article_without_date (E : env) (st st1 st2 : state)
        (sr sid conv : pyval) (d ad : dict) (pre pre' post post' : list pyval) :
  clock_valid E ->
  post_sessions E (uuid4 E) = Ret sr ->
  py_get sr "id" = Ret sid -> truthy sid = true ->
  post_run E sid (uuid4 E) = Ret conv ->
  extract_news_content conv (after_calls E sid st)
    = (Ret (PDict d), after_calls E sid st) ->
  dict_get "news" d = Some (PList (pre ++ PDict ad :: post)) ->
  dict_get "date" ad = None ->
  normalize_articles E pre (after_calls E sid st) = (Ret pre', st1) ->
  normalize_articles E post (tick st1) = (Ret post', st2) ->
  let today := strftime_Ymd (utcnow E (clock_reads st1)) in
  is_Ymd today = true /\
  main E st =
  (Ret (mkHttpResponse
          (BodyJson (PDict (dict_set "news"
             (PList (pre' ++ PDict (ad ++ [("date", PStr today)]) :: post')) d)))
          200 "application/json"), st2).
Proof.
  intros Hclock Hs Hid Hsid Hr Hx Hd Had Hpre Hpost today.
  split; [apply strftime_Ymd_shape, valid_datetime_in_range, Hclock|].
  apply (main_200 E st st2 sr sid conv d (PList (pre ++ PDict ad :: post))
                  (pre ++ PDict ad :: post)); try assumption; [reflexivity|].
  apply (normalize_articles_app E pre (PDict ad :: post) _ pre' st1); [exact Hpre|].
  exact (normalize_articles_undated E ad post post' st1 st2 Had Hpost).
Qed.

Lemma main_article_without_date_witness :
  clock_valid world_undated /\
  main world_undated initial =
  (Ret (mkHttpResponse
          (BodyJson (PDict
             [("news", PList [PDict [("title", PStr "A"); ("date", PStr "2025-08-04")];
                              PDict [("title", PStr "B"); ("date", PStr "2025-08-06")];
                              PDict [("title", PStr "C"); ("date", PStr "2025-08-06")]])]))
          200 "application/json"),
   mkstate 5 [CreateSession "user"; RunConversation (PStr "session-1") "user"]).
Proof.
  assert (Hclock : clock_valid world_undated) by (intros n; reflexivity).
  split; [exact Hclock|].
  apply (main_article_without_date world_undated initial
           (mkstate 2 [CreateSession "user"; RunConversation (PStr "session-1") "user"])
           (mkstate 5 [CreateSession "user"; RunConversation (PStr "session-1") "user"])
           (PDict [("id", PStr "session-1")]) (PStr "session-1")
           (reply (text
             "{'news':[{'title':'A','date':'2 days ago'},{'title':'B'},{'title':'C','date':'N/A'}]}"))
           [("news", PList [PDict [("title", PStr "A"); ("date", PStr "2 days ago")];
                            PDict [("title", PStr "B")];
                            PDict [("title", PStr "C"); ("date", PStr "N/A")]])]
           [("title", PStr "B")]
           [PDict [("title", PStr "A"); ("date", PStr "2 days ago")]]
           [PDict [("title", PStr "A"); ("date", PStr "2025-08-04")]]
           [PDict [("title", PStr "C"); ("date", PStr "N/A")]]
           [PDict [("title", PStr "C"); ("date", PStr "2025-08-06")]] Hclock);
    vm_compute; reflexivity.
Defined.

(** * Further properties *)

(** ** Strings and patterns *)

Lemma append_assoc (a b c : string) : (a ++ b) ++ c = a ++ (b ++ c).
Proof. induction a as [|x a IH]; simpl; [reflexivity|now rewrite IH]. Qed.

Lemma append_nil_r (a : string) : a ++ "" = a.
Proof. induction a as [|x a IH]; simpl; [reflexivity|now rewrite IH]. Qed.

Lemma substring_full (s : string) : substring 0 (String.length s) s = s.
Proof. induction s as [|c r IH]; simpl; [reflexivity|now rewrite IH]. Qed.

Lemma digit_not_space (c : ascii) : py_isdigit c = true -> py_isspace c = false.
Proof.
  unfold py_isdigit, py_isspace. intros H.
  apply andb_true_iff in H. destruct H as [H1 H2].
  apply Z.leb_le in H1. apply Z.leb_le in H2.
  repeat match goal with
         | |- context [?a <=? ?b] => destruct (Z.leb_spec a b); try lia
         | |- context [?a =? ?b] => destruct (Z.eqb_spec a b); try lia
         end; reflexivity.
Qed.

Lemma rstrip_app (s t : string) :
  rstrip t = t -> t <> "" -> rstrip (s ++ t) = s ++ t.
Proof.
  intros Ht Hne. induction s as [|c r IH]; simpl; [exact Ht|].
  rewrite IH. destruct (r ++ t) eqn:Hr; [|reflexivity].
  destruct r; [simpl in Hr; contradiction|discriminate].
Qed.

Lemma contains_app_r (sub s t : string) :
  contains sub t = true -> contains sub (s ++ t) = true.
Proof.
  intros Ht. induction s as [|c r IH]; simpl; [exact Ht|].
  rewrite IH. now destruct sub as [|a sub']; [|destruct (ascii_dec a c); [destruct (prefix _ _)|]].
Qed.

Lemma split_aux_word (w : string) :
  all_chars not_space w = true ->
  forall cur t, split_aux cur (w ++ t) = split_aux (cur ++ w) t.
Proof.
  induction w as [|c r IH]; simpl; intros H cur t.
  - now rewrite append_nil_r.
  - apply andb_true_iff in H. destruct H as [Hc Hr].
    unfold not_space in Hc. apply negb_true_iff in Hc. rewrite Hc.
    rewrite (IH Hr). now rewrite append_assoc.
Qed.

Lemma rmatch_seq (a b : regex) (s : string) :
  rmatch (RSeq a b) s = flat_map (rmatch b) (rmatch a s).
Proof. reflexivity. Qed.

Lemma rmatch_char_cons (p : ascii -> bool) (c : ascii) (r : string) :
  rmatch (RChar p) (String c r) = if p c then [r] else [].
Proof. reflexivity. Qed.

Lemma rmatch_star_char (p : ascii -> bool) (c : ascii) (r : string) :
  rmatch (RStar (RChar p)) (String c r) =
  if p c then (rmatch (RStar (RChar p)) r ++ [String c r])%list
  else [String c r].
Proof.
  cbn [rmatch String.length]. destruct (p c); [|reflexivity].
  cbn [flat_map]. rewrite (proj2 (Nat.ltb_lt _ _) (Nat.lt_succ_diag_r _)).
  now rewrite app_nil_r.
Qed.

Lemma rmatch_star_all (p : ascii -> bool) (s : string) :
  all_chars p s = true -> exists l, rmatch (RStar (RChar p)) s = "" :: l.
Proof.
  induction s as [|c r IH]; intros H.
  - now exists [].
  - simpl in H. apply andb_true_iff in H. destruct H as [Hc Hr].
    rewrite rmatch_star_char, Hc. destruct (IH Hr) as [l ->].
    now eexists.
Qed.

Lemma re_search_digits (ds : string) :
  ds <> "" -> all_chars py_isdigit ds = true -> re_search digits_re ds = Some ds.
Proof.
  intros Hne H. destruct ds as [|c r]; [contradiction|].
  simpl in H. apply andb_true_iff in H. destruct H as [Hc Hr].
  destruct (rmatch_star_all py_isdigit r Hr) as [l Hl].
  unfold re_search, re_match, digits_re, RPlus, RDigit.
  rewrite rmatch_seq, rmatch_char_cons, Hc. cbn [flat_map]. rewrite Hl.
  cbn [app]. unfold consumed. rewrite Nat.sub_0_r. now rewrite substring_full.
Qed.

(** ** [parse_date]: relative dates *)

Lemma split_relative (ds w : string) :
  ds <> "" -> w <> "" ->
  all_chars not_space ds = true -> all_chars not_space w = true ->
  split (ds ++ " " ++ w ++ " ago") = [ds; w; "ago"].
Proof.
  intros Hds Hw Hd Hn. unfold split.
  rewrite (split_aux_word ds Hd). cbn [append].
  destruct ds as [|d ds']; [contradiction|].
  cbn [split_aux]. change (py_isspace " ") with true. cbv iota.
  rewrite (split_aux_word w Hn). cbn [append].
  destruct w as [|c w']; [contradiction|]. reflexivity.
Qed.

Lemma all_digits_not_space (s : string) :
  all_chars py_isdigit s = true -> all_chars not_space s = true.
Proof.
  induction s as [|c r IH]; simpl; [reflexivity|]. intros H.
  apply andb_true_iff in H. destruct H as [Hc Hr].
  unfold not_space at 1. rewrite (digit_not_space c Hc). exact (IH Hr).
Qed.

Lemma strip_relative (ds w : string) :
  ds <> "" -> all_chars py_isdigit ds = true ->
  strip (ds ++ " " ++ w ++ " ago") = ds ++ " " ++ w ++ " ago".
Proof.
  intros Hds Hd. unfold strip.
  assert (Hl : lstrip (ds ++ " " ++ w ++ " ago") = ds ++ " " ++ w ++ " ago").
  { destruct ds as [|d ds']; [contradiction|].
    simpl in Hd. apply andb_true_iff in Hd. destruct Hd as [Hc _].
    cbn [append lstrip]. now rewrite (digit_not_space d Hc). }
  rewrite Hl.
  assert (H1 : rstrip (w ++ " ago") = w ++ " ago")
    by (apply rstrip_app; [reflexivity|discriminate]).
  assert (H2 : rstrip (" " ++ w ++ " ago") = " " ++ w ++ " ago").
  { cbn [append rstrip]. rewrite H1. destruct (w ++ " ago") eqn:Hw; [|reflexivity].
    destruct w; discriminate. }
  exact (rstrip_app ds (" " ++ w ++ " ago") H2 ltac:(discriminate)).
Qed.

Lemma earlier_raises (now : datetime) (d h m : Z) (e : exn) :
  earlier now d h m = Raise e -> e = OverflowError.
Proof.
  unfold earlier, exc_bind.
  destruct (new_timedelta d h m) as [delta|e1] eqn:H1;
    [|intros [= <-]; exact (new_timedelta_raises _ _ _ _ H1)].
  pose proof (datetime_sub_inv now delta) as H2.
  destruct (datetime_sub now delta); [discriminate|].
  intros [= <-]. exact H2.
Qed.

(** X2.  A relative date written as a number, a unit word and ago, each a
    token of its own, is the date that many hours, days or minutes before
    the second reading of the clock, by the first letter of the unit word
    in either case; any other first letter gives the current date.  A date
    before year 1 raises [OverflowError]. *)
Theorem parse_date_relative (E : env) (st : state) (ds : string)
        (c : ascii) (w : string) :
  ds <> "" -> all_chars py_isdigit ds = true ->
  (String.length ds <= max_str_digits)%nat ->
  all_chars not_space (String c w) = true ->
  let now := utcnow E (S (clock_reads st)) in
  let n := int_of_digits_acc 0 ds in
  fst (parse_date E (PStr (ds ++ " " ++ String c w ++ " ago")) st) =
  if Ascii.eqb (py_lower c) "h" then earlier now 0 n 0
  else if Ascii.eqb (py_lower c) "d" then earlier now n 0 0
  else if Ascii.eqb (py_lower c) "m" then earlier now 0 0 n
  else Ret (strftime_Ymd (utcnow E (clock_reads st))).
Proof.
  intros Hds Hd Hlen Hw now n.
  unfold parse_date, bind, datetime_now, try_except, lift, ret.
  cbn [clock_reads requests].
  rewrite (strip_relative ds (String c w) Hds Hd).
  rewrite (contains_app_r "ago" ds _
             (contains_app_r "ago" " " _ (contains_app_r "ago" (String c w) " ago" eq_refl))).
  rewrite (split_relative ds (String c w) Hds ltac:(discriminate)
             (all_digits_not_space ds Hd) Hw).
  rewrite (re_search_digits ds Hds Hd).
  assert (Hint : py_int ds = Ret n).
  { unfold py_int. destruct ds; [contradiction|].
    now rewrite (proj2 (Nat.ltb_ge _ _) Hlen). }
  rewrite Hint. fold now.
  assert (Hsub : forall d h m,
    fst (let (e0, st') :=
           match new_timedelta d h m with
           | Ret a =>
               match datetime_sub now a with
               | Ret a0 => (Ret (strftime_Ymd a0),
                            mkstate (S (S (clock_reads st))) (requests st))
               | Raise e => (Raise e,
                             mkstate (S (S (clock_reads st))) (requests st))
               end
           | Raise e => (Raise e,
                         mkstate (S (S (clock_reads st))) (requests st))
           end in
         match e0 with
         | Ret a => (Ret a, st')
         | Raise e =>
             if is_ValueError_IndexError_AttributeError e
             then (Ret (strftime_Ymd (utcnow E (clock_reads st))), st')
             else (Raise e, st')
         end) = earlier now d h m).
  { intros d h m. pose proof (earlier_raises now d h m) as Hr.
    unfold earlier, exc_bind in *.
    destruct (new_timedelta d h m) as [delta|e]; cbn [fst].
    - destruct (datetime_sub now delta) as [past|e]; cbn [fst]; [reflexivity|].
      now rewrite (Hr e eq_refl).
    - now rewrite (Hr e eq_refl). }
  destruct (Ascii.eqb (py_lower c) "h"); [apply Hsub|].
  destruct (Ascii.eqb (py_lower c) "d"); [apply Hsub|].
  destruct (Ascii.eqb (py_lower c) "m"); [apply Hsub|].
  reflexivity.
Qed.

(** ** [parse_date]: the dates it returns *)

























(** ** [parse_date]: white space and outcomes *)

Lemma lstrip_spaces (a x : string) :
  all_chars py_isspace a = true -> lstrip (a ++ x) = lstrip x.
Proof.
  induction a as [|c r IH]; simpl; [reflexivity|]. intros H.
  apply andb_true_iff in H. destruct H as [Hc Hr]. rewrite Hc. exact (IH Hr).
Qed.

Lemma rstrip_all_spaces (b : string) :
  all_chars py_isspace b = true -> rstrip b = "".
Proof.
  induction b as [|c r IH]; simpl; [reflexivity|]. intros H.
  apply andb_true_iff in H. destruct H as [Hc Hr]. now rewrite (IH Hr), Hc.
Qed.

Lemma rstrip_spaces (x b : string) :
  all_chars py_isspace b = true -> rstrip (x ++ b) = rstrip x.
Proof.
  intros H. induction x as [|c r IH]; simpl.
  - exact (rstrip_all_spaces b H).
  - now rewrite IH.
Qed.

Lemma lstrip_all_spaces (b : string) :
  all_chars py_isspace b = true -> lstrip b = "".
Proof.
  induction b as [|c r IH]; simpl; [reflexivity|]. intros H.
  apply andb_true_iff in H. destruct H as [Hc Hr]. now rewrite Hc, (IH Hr).
Qed.

Lemma strip_spaces_r (x b : string) :
  all_chars py_isspace b = true -> strip (x ++ b) = strip x.
Proof.
  intros H. unfold strip. induction x as [|c r IH]; cbn [append lstrip].
  - now rewrite (lstrip_all_spaces b H).
  - destruct (py_isspace c); [exact IH|].
    exact (rstrip_spaces (String c r) b H).
Qed.

Lemma strip_spaces (a s b : string) :
  all_chars py_isspace a = true -> all_chars py_isspace b = true ->
  strip (a ++ s ++ b) = strip s.
Proof.
  intros Ha Hb. rewrite <- (strip_spaces_r s b Hb).
  unfold strip. now rewrite (lstrip_spaces a (s ++ b) Ha).
Qed.

(** X4.  White space around a date string does not matter. *)
Theorem parse_date_ignores_outer_space (E : env) (st : state) (a s b : string) :
  all_chars py_isspace a = true -> all_chars py_isspace b = true ->
  parse_date E (PStr (a ++ s ++ b)) st = parse_date E (PStr s) st.
Proof.
  intros Ha Hb. unfold parse_date. cbv zeta.
  now rewrite (strip_spaces a s b Ha Hb).
Qed.

Lemma parse_date_ignores_outer_space_witness :
  parse_date (frozen (mkdatetime 2025 8 6 3 0 5))
             (PStr (text " |" ++ "2 days ago" ++ "  ")) initial
  = parse_date (frozen (mkdatetime 2025 8 6 3 0 5)) (PStr "2 days ago") initial.
Proof.
  apply (parse_date_ignores_outer_space (frozen (mkdatetime 2025 8 6 3 0 5))
           initial (text " |") "2 days ago" "  "); reflexivity.
Defined.



Lemma parse_date_relative_witness :
  fst (parse_date (frozen (mkdatetime 2025 8 6 3 0 5))
                  (PStr ("36" ++ " " ++ "Hrs" ++ " ago")) initial)
  = Ret "2025-08-04".
Proof.
  apply (parse_date_relative (frozen (mkdatetime 2025 8 6 3 0 5)) initial
           "36" "H" "rs"); try reflexivity.
  - discriminate.
  - unfold max_str_digits. simpl. lia.
Defined.

(** ** [extract_news_content]: what it returns and what it reads *)

Lemma scan_once_object (depth : nat) (s : string) (v : pyval) (rest : string) :
  scan_once depth (String "{" s) = Ret (v, rest) -> exists d, v = PDict d.
Proof.
  destruct depth as [|depth']; [discriminate|].
  cbn [scan_once].
  match goal with
  | |- context [?f (String.length _) (@nil (string * pyval)) _] => set (members := f)
  end.
  assert (Hmem : forall n acc x v rest,
             members n acc x = Ret (v, rest) -> exists d, v = PDict d).
  { induction n as [|n IH]; intros acc x v0 rest0; [discriminate|].
    destruct x as [|c r]; [discriminate|].
    unfold members; fold members. cbv beta iota.
    destruct (code c =? 34); [|discriminate].
    unfold exc_bind.
    destruct (scanstring "" r) as [[key r1]|]; [|discriminate].
    destruct (skip_ws r1) as [|a r2]; [discriminate|].
    destruct a as [[] [] [] [] [] [] [] []]; try discriminate.
    destruct (scan_once depth' (skip_ws r2)) as [[value r3]|]; [|discriminate].
    destruct (skip_ws r3) as [|b r4]; [discriminate|].
    destruct b as [[] [] [] [] [] [] [] []]; try discriminate.
    - intros [= <- _]. now eexists.
    - apply IH. }
  change (code "{" =? 34) with false. cbv iota.
  change (Ascii.eqb "{" "{") with true. cbv iota.
  destruct (skip_ws s) as [|a r]; [discriminate|].
  destruct a as [[] [] [] [] [] [] [] []];
    try apply Hmem. intros [= <- _]. now exists [].
Qed.

Lemma json_loads_object (s : string) (v : pyval) :
  json_loads (String "{" s) = Ret v -> exists d, v = PDict d.
Proof.
  unfold json_loads, exc_bind.
  change (skip_ws (String "{" s)) with (String "{" s).
  destruct (scan_once _ (String "{" s)) as [[obj rest]|] eqn:H; [|discriminate].
  destruct (scan_once_object _ _ _ _ H) as [d ->].
  destruct (skip_ws rest); [|discriminate]. intros [= <-]. now exists d.
Qed.

(** A slice that starts where [find] found [c] is empty or starts with [c]. *)
Lemma substring_at_find (c : ascii) (s : string) (n : nat) :
  find c s <> -1 ->
  substring (Z.to_nat (find c s)) n s = ""
  \/ exists t, substring (Z.to_nat (find c s)) n s = String c t.
Proof.
  induction s as [|d r IH]; cbn [find]; [congruence|].
  destruct (Ascii.eqb_spec d c) as [->|Hne].
  - intros _. destruct n; [now left|right]. now eexists.
  - pose proof (find_nonneg c r) as Hr.
    destruct (Z.eqb_spec (find c r) (-1)) as [He|He]; [congruence|].
    intros _. replace (Z.to_nat (find c r + 1)) with (S (Z.to_nat (find c r))) by lia.
    exact (IH He).
Qed.

Lemma re_sub_keeps_opening_brace (t : string) :
  exists t', re_sub missing_comma_re "}, {" (String "{" t) = String "{" t'.
Proof. unfold re_sub. cbn [String.length re_sub_aux]. now eexists. Qed.

(** X5.  [extract_news_content] returns [None] or a dict, never a list, a
    string or a number. *)
Theorem extract_news_content_None_or_dict (response : pyval) (st : state) :
  extract_news_content response st = (Ret PNone, st) \/
  exists d, extract_news_content response st = (Ret (PDict d), st).
Proof.
  destruct (extract_news_content_returns response st) as [v Hv].
  destruct response as [| | | | |l|]; try (now left).
  destruct l as [|m rest]; [now left|].
  destruct (reply_text m) as [[| | | |raw| |]|e] eqn:Ht;
    try (left; revert Ht; unfold reply_text, exc_bind, extract_news_content,
           try_except, bind, lift, ret, raise;
         destruct (getitem_str m "content") as [content|]; [|reflexivity];
         destruct (getitem_str content "parts") as [parts|]; [|reflexivity];
         destruct (getitem_0 parts) as [part|]; [|reflexivity];
         intros ->; reflexivity).
  rewrite (extract_news_content_text m rest raw st Ht).
  destruct ((find "{" raw =? -1) || (rfind "}" raw =? -1)) eqn:Hc; [now left|].
  apply orb_false_iff in Hc. destruct Hc as [Hf _]. apply Z.eqb_neq in Hf.
  destruct (json_loads (repaired_slice raw)) as [nd|] eqn:Hj; [|now left].
  right. unfold repaired_slice, slice in Hj.
  destruct (substring_at_find "{" raw (Z.to_nat (rfind "}" raw + 1 - find "{" raw)) Hf)
    as [He|[t He]]; rewrite He in Hj.
  - discriminate Hj.
  - destruct (re_sub_keeps_opening_brace t) as [t' Ht']. rewrite Ht' in Hj.
    destruct (json_loads_object _ _ Hj) as [d ->]. now exists d.
Qed.

Lemma find_app (c : ascii) (p x : string) :
  ~ In c (list_ascii_of_string p) ->
  find c (p ++ String c x) = Z.of_nat (String.length p).
Proof.
  induction p as [|d r IH]; intros H.
  - cbn [append find]. now rewrite Ascii.eqb_refl.
  - cbn [append find String.length].
    destruct (Ascii.eqb_spec d c) as [->|Hne]; [exfalso; apply H; now left|].
    rewrite IH by (intros Hin; apply H; now right).
    destruct (Z.eqb_spec (Z.of_nat (String.length r)) (-1)); lia.
Qed.

Lemma rfind_app (c : ascii) (x q : string) :
  ~ In c (list_ascii_of_string q) ->
  rfind c (x ++ String c q) = Z.of_nat (String.length x).
Proof.
  intros H. induction x as [|d r IH].
  - cbn [append rfind]. rewrite (rfind_absent c q H). cbn.
    now rewrite Ascii.eqb_refl.
  - cbn [append rfind String.length]. rewrite IH.
    destruct (Z.eqb_spec (Z.of_nat (String.length r)) (-1)); lia.
Qed.

Lemma substring_skip (p x : string) (n : nat) :
  substring (String.length p) n (p ++ x) = substring 0 n x.
Proof. induction p as [|d r IH]; [reflexivity|exact IH]. Qed.

Lemma substring_prefix (j q : string) :
  substring 0 (String.length j) (j ++ q) = j.
Proof.
  induction j as [|d r IH]; cbn [append String.length substring].
  - now destruct q.
  - now rewrite IH.
Qed.

Lemma length_append (a b : string) :
  String.length (a ++ b) = (String.length a + String.length b)%nat.
Proof. induction a as [|d r IH]; simpl; [reflexivity|now rewrite IH]. Qed.

(** The slice taken out of prose [p], an object text and prose [q] is the
    object text: it is found by its first and its last brace. *)
Lemma slice_of_prose (p j' q : string) :
  ~ In "{"%char (list_ascii_of_string p) ->
  ~ In "}"%char (list_ascii_of_string q) ->
  let j := String "{" j' ++ "}" in
  let raw := p ++ j ++ q in
  find "{" raw <> -1 /\ rfind "}" raw <> -1 /\
  slice raw (find "{" raw) (rfind "}" raw + 1) = j.
Proof.
  intros Hp Hq j raw.
  assert (Hf : find "{" raw = Z.of_nat (String.length p)).
  { unfold raw, j. cbn [append]. exact (find_app "{" p _ Hp). }
  assert (Hr : rfind "}" raw = Z.of_nat (String.length (p ++ String "{" j'))).
  { unfold raw, j.
    replace (p ++ (String "{" j' ++ "}") ++ q)
      with ((p ++ String "{" j') ++ String "}" q)
      by (now rewrite !append_assoc).
    exact (rfind_app "}" _ q Hq). }
  rewrite Hf, Hr. repeat split; try lia.
  unfold slice. rewrite length_append, Nat2Z.id.
  replace (Z.to_nat (Z.of_nat (String.length p + String.length (String "{" j')) + 1
                     - Z.of_nat (String.length p)))
    with (String.length j)
    by (unfold j; rewrite length_append; cbn [String.length]; lia).
  unfold raw. rewrite substring_skip. apply substring_prefix.
Qed.

Lemma slice_of_object (j' : string) :
  let j := String "{" j' ++ "}" in
  find "{" j <> -1 /\ rfind "}" j <> -1 /\
  slice j (find "{" j) (rfind "}" j + 1) = j.
Proof.
  intros j.
  pose proof (slice_of_prose "" j' "" (fun H => H) (fun H => H)) as H.
  cbv zeta in H. fold j in H.
  change ("" ++ j ++ "") with (j ++ "") in H. now rewrite append_nil_r in H.
Qed.

Lemma extract_news_content_reply (raw : string) (st : state) :
  extract_news_content (reply raw) st =
  (Ret (if (find "{" raw =? -1) || (rfind "}" raw =? -1) then PNone
        else match json_loads (repaired_slice raw) with
             | Ret news_data => news_data
             | Raise _ => PNone
             end), st).
Proof.
  exact (extract_news_content_text
           (PDict [("content", PDict [("parts", PList [PDict [("text", PStr raw)]])])])
           [] raw st eq_refl).
Qed.

(** X6.  What is written before the first opening brace and after the last
    closing brace changes nothing. *)
Theorem extract_news_content_ignores_prose (p j' q : string) (st : state) :
  ~ In "{"%char (list_ascii_of_string p) ->
  ~ In "}"%char (list_ascii_of_string q) ->
  let j := String "{" j' ++ "}" in
  extract_news_content (reply (p ++ j ++ q)) st = extract_news_content (reply j) st.
Proof.
  intros Hp Hq j.
  destruct (slice_of_prose p j' q Hp Hq) as (Hf & Hr & Hs).
  destruct (slice_of_object j') as (Hf' & Hr' & Hs').
  fold j in Hf, Hr, Hs, Hf', Hr', Hs'.
  rewrite !extract_news_content_reply.
  apply Z.eqb_neq in Hf, Hr, Hf', Hr'.
  unfold repaired_slice. rewrite Hf, Hr, Hf', Hr', Hs, Hs'. reflexivity.
Qed.

Lemma re_sub_aux_gap_free (fuel : nat) :
  forall s, gap_free s = true -> re_sub_aux fuel missing_comma_re "}, {" s = s.
Proof.
  induction fuel as [|f IH]; intros s H; [reflexivity|].
  destruct s as [|c t]; [reflexivity|].
  cbn [re_sub_aux]. cbn [gap_free] in H.
  destruct (re_match missing_comma_re (String c t)); [discriminate|].
  now rewrite (IH t H).
Qed.

(** X7.  When no closing brace of the object text is followed, after
    optional white space, by an opening brace, the repair changes nothing:
    extraction is [json.loads] on the text between the first and the last
    brace, and [None] when that fails. *)
Theorem extract_news_content_clean_object (p j' q : string) (st : state) :
  ~ In "{"%char (list_ascii_of_string p) ->
  ~ In "}"%char (list_ascii_of_string q) ->
  let j := String "{" j' ++ "}" in
  gap_free j = true ->
  extract_news_content (reply (p ++ j ++ q)) st =
  (Ret (match json_loads j with Ret v => v | Raise _ => PNone end), st).
Proof.
  intros Hp Hq j Hg.
  destruct (slice_of_prose p j' q Hp Hq) as (Hf & Hr & Hs). fold j in Hf, Hr, Hs.
  rewrite extract_news_content_reply.
  apply Z.eqb_neq in Hf, Hr.
  unfold repaired_slice. rewrite Hf, Hr, Hs. cbn [orb].
  unfold re_sub. now rewrite (re_sub_aux_gap_free _ j Hg).
Qed.

(** ** [main]: responses and remote calls *)

Lemma parse_date_requests (E : env) (v : pyval) (st : state) :
  requests (snd (parse_date E v st)) = requests st.
Proof.
  unfold parse_date, bind, datetime_now, try_except, lift, ret.
  cbn [clock_reads requests].
  destruct v as [| | | |x| |]; try reflexivity.
  destruct (contains "ago" (strip x)).
  - destruct (split (strip x)) as [|p0 ps]; [reflexivity|].
    destruct (re_search digits_re p0); [|reflexivity].
    destruct (py_int _) as [value|e]; [|now destruct e].
    destruct ps as [|[|c r] ps']; try reflexivity.
    destruct (Ascii.eqb (py_lower c) "h");
      [destruct (new_timedelta _ _ _) as [?|e];
       [destruct (datetime_sub _ _) as [?|e]|]; try reflexivity; now destruct e|].
    destruct (Ascii.eqb (py_lower c) "d");
      [destruct (new_timedelta _ _ _) as [?|e];
       [destruct (datetime_sub _ _) as [?|e]|]; try reflexivity; now destruct e|].
    destruct (Ascii.eqb (py_lower c) "m");
      [destruct (new_timedelta _ _ _) as [?|e];
       [destruct (datetime_sub _ _) as [?|e]|]; try reflexivity; now destruct e|].
    reflexivity.
  - destruct (strptime_b_d_Y _) as [?|e]; [reflexivity|].
    destruct (is_ValueError e); [|reflexivity].
    destruct (fromisoformat _) as [?|e']; [reflexivity|].
    now destruct (is_ValueError e').
Qed.

Lemma normalize_articles_requests (E : env) (articles : list pyval) :
  forall st, requests (snd (normalize_articles E articles st)) = requests st.
Proof.
  induction articles as [|a rest IH]; intros st; [reflexivity|].
  cbn [normalize_articles]. unfold bind, lift, ret.
  destruct (py_get a "date") as [date|e]; [|reflexivity].
  pose proof (parse_date_requests E date st) as Hp.
  destruct (parse_date E date st) as [[s|e] st1]; cbn [snd] in Hp; [|exact Hp].
  destruct a as [| | | | | |d]; try exact Hp.
  pose proof (IH st1) as Hn.
  destruct (normalize_articles E rest st1) as [[rest'|e] st2]; cbn [snd] in *;
    congruence.
Qed.

(** X9.  The handler always answers, with status 200 or 500, and its remote
    calls are one call that creates a session, followed at most by one
    conversation call for the same user and with the identifier the session
    response carried. *)
Theorem main_always_answers (E : env) (st : state) :
  exists resp st',
    main E st = (Ret resp, st') /\
    (status_code resp = 200 \/ status_code resp = 500) /\
    (requests st' = (requests st ++ [CreateSession (uuid4 E)])%list \/
     exists sid,
       issued_session_id E sid /\
       requests st' = ((requests st ++ [CreateSession (uuid4 E)])
                         ++ [RunConversation sid (uuid4 E)])%list).
Proof.
  unfold main, try_except, bind, create_session, run_conversation, lift, ret.
  cbn [clock_reads requests is_Exception].
  destruct (post_sessions E (uuid4 E)) as [sr|e] eqn:Hs;
    [|do 2 eexists; split; [reflexivity|split; [now right|now left]]].
  destruct (py_get sr "id") as [sid|e] eqn:Hid;
    [|do 2 eexists; split; [reflexivity|split; [now right|now left]]].
  destruct (truthy sid) eqn:Hsid;
    [|do 2 eexists; split; [reflexivity|split; [now right|now left]]].
  assert (Hcalls : forall l,
            l = ((requests st ++ [CreateSession (uuid4 E)])
                   ++ [RunConversation sid (uuid4 E)])%list ->
            l = (requests st ++ [CreateSession (uuid4 E)])%list \/
            exists sid,
              issued_session_id E sid /\
              l = ((requests st ++ [CreateSession (uuid4 E)])
                     ++ [RunConversation sid (uuid4 E)])%list)
    by (intros l ->; right; exists sid; split; [now exists sr|reflexivity]).
  destruct (post_run E sid (uuid4 E)) as [conv|e];
    [|do 2 eexists; split; [reflexivity|split; [now right|now apply Hcalls]]].
  cbn [clock_reads requests]. fold (after_calls E sid st).
  destruct (extract_news_content_returns conv (after_calls E sid st)) as [nd ->].
  destruct (truthy nd); cbn [fst snd];
    [|do 2 eexists; split; [reflexivity|split; [now right|now apply Hcalls]]].
  destruct (py_in "news" nd) as [[|]|e];
    try (do 2 eexists; split; [reflexivity|split; [now right|now apply Hcalls]]).
  destruct (getitem_str nd "news") as [news|e];
    [|do 2 eexists; split; [reflexivity|split; [now right|now apply Hcalls]]].
  destruct (py_iter news) as [items|e];
    [|do 2 eexists; split; [reflexivity|split; [now right|now apply Hcalls]]].
  pose proof (normalize_articles_requests E items (after_calls E sid st)) as Hn.
  destruct (normalize_articles E items (after_calls E sid st)) as [[items'|e] st3];
    cbn [snd] in Hn;
    do 2 eexists; (split; [reflexivity|split; [auto|now apply Hcalls]]).
Qed.

(** X11.  A failure of either remote call ends the request with a 500 that
    carries the exception; when the first call fails, the second is not
    made. *)
Theorem main_transport_failure (E : env) (st : state) (e : exn) :
  (post_sessions E (uuid4 E) = Raise e ->
   main E st =
   (Ret (mkHttpResponse (BodyError e) 500 "text/plain"),
    mkstate (clock_reads st) (requests st ++ [CreateSession (uuid4 E)]))) /\
  (forall sid, issued_session_id E sid ->
   post_run E sid (uuid4 E) = Raise e ->
   main E st =
   (Ret (mkHttpResponse (BodyError e) 500 "text/plain"), after_calls E sid st)).
Proof.
  split.
  - intros Hs. unfold main, try_except, bind, create_session, lift, ret.
    now rewrite Hs.
  - intros sid (sr & Hs & Hid & Hsid) Hr.
    unfold main, try_except, bind, create_session, run_conversation, lift, ret.
    rewrite Hs, Hid, Hsid. cbn [clock_reads requests]. now rewrite Hr.
Qed.

(** X12.  An id that is there but false as a condition (null, false, 0,
    an empty string, list or object) is treated like a missing one. *)
Theorem main_falsy_session_id (E : env) (st : state) (sr sid : pyval) :
  post_sessions E (uuid4 E) = Ret sr ->
  py_get sr "id" = Ret sid -> truthy sid = false ->
  main E st =
  (Ret (mkHttpResponse (BodyText "Failed to get session ID from response")
                       500 "text/plain"),
   mkstate (clock_reads st) (requests st ++ [CreateSession (uuid4 E)])).
Proof.
  intros Hs Hid Hsid.
  unfold main, try_except, bind, create_session, lift, ret.
  now rewrite Hs, Hid, Hsid.
Qed.

(** X13.  Without a payload, with an empty payload or with a payload that
    has no news, the handler answers 500 with the message about parsing,
    after both remote calls and without reading the clock. *)
Theorem main_no_news (E : env) (st : state) (sid conv nd : pyval) :
  issued_session_id E sid ->
  post_run E sid (uuid4 E) = Ret conv ->
  extract_news_content conv (after_calls E sid st) = (Ret nd, after_calls E sid st) ->
  nd = PNone \/ (exists d, nd = PDict d /\ dict_get "news" d = None) ->
  main E st =
  (Ret (mkHttpResponse (BodyText "Failed to parse news data from response")
                       500 "text/plain"), after_calls E sid st).
Proof.
  intros (sr & Hs & Hid & Hsid) Hr Hx Hnd.
  unfold main, try_except, bind, create_session, run_conversation, lift, ret.
  rewrite Hs, Hid, Hsid, Hr. cbn [clock_reads requests].
  fold (after_calls E sid st). rewrite Hx.
  destruct Hnd as [->|(d & -> & Hd)]; [reflexivity|].
  cbn [truthy py_in]. rewrite Hd. now destruct d.
Qed.

Lemma normalize_articles_not_dict (E : env) (a : pyval) (articles : list pyval) :
  In a articles -> (forall d, a <> PDict d) ->
  forall st, exists e st', normalize_articles E articles st = (Raise e, st').
Proof.
  intros Hin Ha. induction articles as [|b rest IH]; [contradiction|].
  intros st. cbn [normalize_articles]. unfold bind, lift, ret.
  destruct b as [| | | | | |d];
    try (now eexists _, _).
  destruct Hin as [<-|Hin]; [now destruct (Ha d)|].
  cbn [py_get].
  destruct (parse_date E _ st) as [[s|e] st1]; [|now eexists _, _].
  destruct (IH Hin st1) as (e & st' & ->). now eexists _, _.
Qed.

(** X14.  All or nothing: when one item of news is not an object, the handler
    answers 500, whatever the other articles are. *)
Theorem main_bad_article (E : env) (st : state) (sid conv : pyval) (d : dict)
        (a : pyval) (articles : list pyval) :
  issued_session_id E sid ->
  post_run E sid (uuid4 E) = Ret conv ->
  extract_news_content conv (after_calls E sid st)
    = (Ret (PDict d), after_calls E sid st) ->
  dict_get "news" d = Some (PList articles) ->
  In a articles -> (forall x, a <> PDict x) ->
  exists e st',
    main E st = (Ret (mkHttpResponse (BodyError e) 500 "text/plain"), st').
Proof.
  intros (sr & Hs & Hid & Hsid) Hr Hx Hd Hin Ha.
  destruct (normalize_articles_not_dict E a articles Hin Ha (after_calls E sid st))
    as (e & st' & Hn).
  exists e, st'.
  unfold main, try_except, bind, create_session, run_conversation, lift, ret.
  rewrite Hs, Hid, Hsid, Hr. cbn [clock_reads requests].
  fold (after_calls E sid st). rewrite Hx.
  assert (Ht : truthy (PDict d) = true) by (destruct d; [discriminate|reflexivity]).
  rewrite Ht. cbn [py_in getitem_str py_iter]. rewrite Hd. cbn [py_iter].
  now rewrite Hn.
Qed.

Lemma dict_set_same (k : string) (v : pyval) (d : dict) :
  dict_get k d = Some v -> dict_set k v d = d.
Proof.
  induction d as [|[k' v'] r IH]; simpl; [discriminate|].
  destruct (String.eqb_spec k' k) as [->|Hk].
  - now intros [= ->].
  - intros H. now rewrite (IH H).
Qed.

(** X15.  With nothing under news to visit, the handler answers 200 with the
    payload as extracted, and does not read the clock. *)
Theorem main_empty_news (E : env) (st : state) (sid conv news : pyval) (d : dict) :
  issued_session_id E sid ->
  post_run E sid (uuid4 E) = Ret conv ->
  extract_news_content conv (after_calls E sid st)
    = (Ret (PDict d), after_calls E sid st) ->
  dict_get "news" d = Some news -> py_iter news = Ret [] ->
  main E st =
  (Ret (mkHttpResponse (BodyJson (PDict d)) 200 "application/json"),
   after_calls E sid st).
Proof.
  intros (sr & Hs & Hid & Hsid) Hr Hx Hd Hit.
  rewrite (main_200 E st (after_calls E sid st) sr sid conv d news [] []
             Hs Hid Hsid Hr Hx Hd Hit eq_refl).
  destruct news as [| | | | |l|]; try reflexivity.
  simpl in Hit. injection Hit as ->. now rewrite (dict_set_same _ _ _ Hd).
Qed.

(** X10.  The handler answers 200 exactly when the session has an
    identifier, the conversation call returns, the extracted payload is an
    object with news, and the loop gets through every item under news. *)
Theorem main_200_iff (E : env) (st : state) :
  (exists resp st', main E st = (Ret resp, st') /\ status_code resp = 200) <->
  (exists sid conv d news items items' st',
      issued_session_id E sid /\
      post_run E sid (uuid4 E) = Ret conv /\
      extract_news_content conv (after_calls E sid st)
        = (Ret (PDict d), after_calls E sid st) /\
      dict_get "news" d = Some news /\ py_iter news = Ret items /\
      normalize_articles E items (after_calls E sid st) = (Ret items', st')).
Proof.
  split.
  - intros (resp & st' & Hm & H200).
    destruct (main_200_inv E st st' resp Hm H200)
      as (sr & sid & conv & d & news & items & items'
          & Hs & Hid & Hsid & Hr & Hx & Hd & Hit & Hn & _).
    exists sid, conv, d, news, items, items', st'.
    repeat split; try assumption. now exists sr.
  - intros (sid & conv & d & news & items & items' & st'
            & (sr & Hs & Hid & Hsid) & Hr & Hx & Hd & Hit & Hn).
    eexists _, st'. split.
    + exact (main_200 E st st' sr sid conv d news items items'
               Hs Hid Hsid Hr Hx Hd Hit Hn).
    + reflexivity.
Qed.


Lemma extract_news_content_no_text (m : pyval) (rest : list pyval) (st : state) :
  (forall raw, reply_text m <> Ret (PStr raw)) ->
  extract_news_content (PList (m :: rest)) st = (Ret PNone, st).
Proof.
  unfold reply_text, exc_bind, extract_news_content, try_except, bind, lift,
    ret, raise. intros H.
  destruct (getitem_str m "content") as [content|]; [|reflexivity].
  destruct (getitem_str content "parts") as [parts|]; [|reflexivity].
  destruct (getitem_0 parts) as [part|]; [|reflexivity].
  destruct (getitem_str part "text") as [[| | | |raw| |]|]; try reflexivity.
  now destruct (H raw).
Qed.

(** X8.  Only the text at content -> parts[0] -> text of the first message
    matters: later messages and other fields are never looked at. *)
Theorem extract_news_content_first_text_only (m m' : pyval)
        (rest rest' : list pyval) (st : state) :
  reply_text m = reply_text m' ->
  extract_news_content (PList (m :: rest)) st
  = extract_news_content (PList (m' :: rest')) st.
Proof.
  intros H.
  destruct (reply_text m') as [[| | | |raw| |]|e] eqn:H';
    try (rewrite !extract_news_content_no_text; [reflexivity| |];
         intros raw; congruence).
  now rewrite (extract_news_content_text m rest raw st H),
              (extract_news_content_text m' rest' raw st H').
Qed.

(** ** Instances *)

Lemma extract_news_content_ignores_prose_witness :
  extract_news_content
    (reply (text "Here you go:|" ++ (String "{" (text "'news':[]") ++ "}")
            ++ text "|Enjoy!")) initial
  = extract_news_content (reply (String "{" (text "'news':[]") ++ "}")) initial.
Proof.
  apply (extract_news_content_ignores_prose
           (text "Here you go:|") (text "'news':[]") (text "|Enjoy!") initial);
    simpl; intros H; repeat (destruct H as [H|H]; [discriminate H|]); exact H.
Defined.

Lemma extract_news_content_clean_object_witness :
  extract_news_content
    (reply (text "Here you go:|" ++ (String "{" (text "'news':[]") ++ "}")
            ++ text "|Enjoy!")) initial
  = (Ret (PDict [("news", PList [])]), initial).
Proof.
  apply (extract_news_content_clean_object
           (text "Here you go:|") (text "'news':[]") (text "|Enjoy!") initial);
    [simpl; intros H; repeat (destruct H as [H|H]; [discriminate H|]); exact H
    |simpl; intros H; repeat (destruct H as [H|H]; [discriminate H|]); exact H
    |reflexivity].
Defined.

Lemma extract_news_content_first_text_only_witness :
  extract_news_content
    (PList [PDict [("role", PStr "model");
                   ("content", PDict [("parts", PList [PDict [("text", PStr "{}")];
                                                       PDict [("text", PStr "x")]])])];
            PNone]) initial
  = extract_news_content (reply "{}") initial.
Proof.
  apply (extract_news_content_first_text_only _ _ [PNone] [] initial).
  reflexivity.
Defined.

Lemma main_transport_failure_witness :
  main (frozen (mkdatetime 2025 8 6 3 0 5)) initial =
  (Ret (mkHttpResponse (BodyError RequestException) 500 "text/plain"),
   mkstate O [CreateSession "user"]) /\
  main world_run_down initial =
  (Ret (mkHttpResponse (BodyError RequestException) 500 "text/plain"),
   after_calls world_run_down (PStr "session-1") initial).
Proof.
  split.
  - apply (proj1 (main_transport_failure (frozen (mkdatetime 2025 8 6 3 0 5))
                    initial RequestException)). reflexivity.
  - apply (proj2 (main_transport_failure world_run_down initial RequestException)
             (PStr "session-1")); [|reflexivity].
    exists (PDict [("id", PStr "session-1")]). repeat split; reflexivity.
Defined.

Lemma main_falsy_session_id_witness :
  main world_empty_id initial =
  (Ret (mkHttpResponse (BodyText "Failed to get session ID from response")
                       500 "text/plain"),
   mkstate O [CreateSession "user"]).
Proof.
  apply (main_falsy_session_id world_empty_id initial
           (PDict [("id", PStr "")]) (PStr "")); reflexivity.
Defined.

Lemma main_no_news_witness :
  main world_no_news initial =
  (Ret (mkHttpResponse (BodyText "Failed to parse news data from response")
                       500 "text/plain"),
   after_calls world_no_news (PStr "session-1") initial).
Proof.
  apply (main_no_news world_no_news initial (PStr "session-1")
           (reply (text "{'items':[]}")) (PDict [("items", PList [])])).
  - exists (PDict [("id", PStr "session-1")]). repeat split; reflexivity.
  - reflexivity.
  - vm_compute. reflexivity.
  - right. exists [("items", PList [])]. split; reflexivity.
Defined.

Lemma main_bad_article_witness :
  exists e st',
    main world_bad_article initial =
    (Ret (mkHttpResponse (BodyError e) 500 "text/plain"), st').
Proof.
  apply (main_bad_article world_bad_article initial (PStr "session-1")
           (reply (text "{'news':[{'title':'A'},'oops']}"))
           [("news", PList [PDict [("title", PStr "A")]; PStr "oops"])]
           (PStr "oops") [PDict [("title", PStr "A")]; PStr "oops"]).
  - exists (PDict [("id", PStr "session-1")]). repeat split; reflexivity.
  - reflexivity.
  - vm_compute. reflexivity.
  - reflexivity.
  - right. now left.
  - discriminate.
Defined.

Lemma main_empty_news_witness :
  main world_empty_news initial =
  (Ret (mkHttpResponse
          (BodyJson (PDict [("news", PList []); ("topic", PStr "EV")]))
          200 "application/json"),
   after_calls world_empty_news (PStr "session-1") initial).
Proof.
  apply (main_empty_news world_empty_news initial (PStr "session-1")
           (reply (text "{'news':[],'topic':'EV'}")) (PList [])).
  - exists (PDict [("id", PStr "session-1")]). repeat split; reflexivity.
  - reflexivity.
  - vm_compute. reflexivity.
  - reflexivity.
  - reflexivity.
Defined.

